(** * MarkovChainTextPredictor: the n-gram predictor of next_word_gui.py

    A shallow embedding of the class [MarkovChainTextPredictor]
    (its methods [__init__], [train], [predict_next] and [get_stats])
    together with the Python built-ins those methods call, followed by
    the properties of the predictor.

    Conventions.
    - A Python [str] is the list of its Unicode code points.
    - A Python [int] is a [Z]; a Python [float] is a binary64 value of
      [SpecFloat] (precision 53, largest exponent 1024), and every
      operation on floats rounds as IEEE 754 does, to nearest, ties to
      even.
    - A Python [dict] is an association list in insertion order, with at
      most one entry per key; a [tuple] of tokens is a list of tokens; a
      [set] is a [gset].
    - A built-in that may raise returns an exception or a value; a
      method is a function on the predictor object in a state-and-
      exception monad: the object is threaded through, and a raised
      exception keeps the mutations made before it.
    - [time.time()] is read twice by [train]; the two readings are
      arguments of the model of [train]. *)

From Stdlib Require Import ZArith List Bool Lia Sorted Permutation.
From Stdlib Require Import Ascii String DecimalString SpecFloat.
From stdpp Require Import base decidable list numbers gmap.

Local Open Scope Z_scope.

(* ===================================================================== *)
(** * Python strings *)
(* ===================================================================== *)

Module Py.

(** A code point; a [str] is a sequence of them. *)
Definition codepoint := N.
Definition str := list codepoint.

(** A [str] literal whose characters are all ASCII. *)
Definition lit (s : string) : str :=
  N_of_ascii <$> list_ascii_of_string s.

(** [ch.isspace()], as CPython decides it for a single code point: the
    ASCII table below 128, the Unicode white-space property above. *)
Definition isspace (c : codepoint) : bool :=
  ((9 <=? c) && (c <=? 13) || (28 <=? c) && (c <=? 32)
   || (c =? 133) || (c =? 160) || (c =? 5760)
   || (8192 <=? c) && (c <=? 8202)
   || (c =? 8232) || (c =? 8233) || (c =? 8239) || (c =? 8287)
   || (c =? 12288))%N.

(** [s.split()] with no separator: the maximal runs of non-space
    characters, in order. [cur] is the run being read, last character
    first. *)
Fixpoint split_from (cur : str) (s : str) : list str :=
  match s with
  | [] => match cur with [] => [] | _ => [rev cur] end
  | c :: s' =>
      if isspace c
      then match cur with
           | [] => split_from [] s'
           | _ => rev cur :: split_from [] s'
           end
      else split_from (c :: cur) s'
  end.

Definition split (s : str) : list str := split_from [] s.

(** [s.strip()]: leading and trailing white space removed. *)
Fixpoint lstrip (s : str) : str :=
  match s with
  | c :: s' => if isspace c then lstrip s' else s
  | [] => []
  end.

Definition strip (s : str) : str := rev (lstrip (rev (lstrip s))).

(** [a < b] on [str]: lexicographic on code points, a proper prefix
    first. *)
Fixpoint str_ltb (a b : str) : bool :=
  match a, b with
  | [], [] => false
  | [], _ :: _ => true
  | _ :: _, [] => false
  | x :: a', y :: b' =>
      if (x <? y)%N then true
      else if (y <? x)%N then false
      else str_ltb a' b'
  end.

(* --------------------------------------------------------------------- *)
(** ** Exceptions *)
(* --------------------------------------------------------------------- *)

(** The exceptions the built-ins below can raise. *)
Inductive exn := IndexError | ZeroDivisionError | OverflowError.

(** What a built-in that may raise evaluates to. *)
Definition result (A : Type) : Type := exn + A.

Definition and_then {A B} (r : result A) (k : A -> result B) : result B :=
  match r with inl e => inl e | inr a => k a end.

(* --------------------------------------------------------------------- *)
(** ** Sequences: [len], indexing, slicing, [range] *)
(* --------------------------------------------------------------------- *)

Section Sequences.
Context {A : Type}.

Definition len (l : list A) : Z := Z.of_nat (length l).

(** [l[i]]: a negative index counts from the end; outside the list it
    is an [IndexError]. *)
Definition index (l : list A) (i : Z) : result A :=
  let j := if i <? 0 then i + len l else i in
  if (0 <=? j) && (j <? len l)
  then match l !! Z.to_nat j with
       | Some x => inr x
       | None => inl IndexError
       end
  else inl IndexError.

(** A slice bound is clipped into [0 .. len l]; a negative bound is
    first taken from the end. *)
Definition clip (l : list A) (dflt : Z) (b : option Z) : Z :=
  match b with
  | None => dflt
  | Some i => if i <? 0 then Z.max (i + len l) 0 else Z.min i (len l)
  end.

(** [l[lo:hi]] with step 1; either bound may be omitted. *)
Definition slice (l : list A) (lo hi : option Z) : list A :=
  let a := clip l 0 lo in
  let b := clip l (len l) hi in
  take (Z.to_nat (b - a)) (drop (Z.to_nat a) l).
End Sequences.

(** [range(m)] for an integer [m]: empty when [m <= 0]. *)
Definition range (m : Z) : list Z :=
  Z.of_nat <$> seq 0 (Z.to_nat m).

(** [len(set(l))]: the number of distinct elements. *)
Definition len_set `{Countable A} (l : list A) : Z :=
  Z.of_nat (size (list_to_set l : gset A)).

(* --------------------------------------------------------------------- *)
(** ** Numbers: [int], binary64 [float], and the arithmetic on them *)
(* --------------------------------------------------------------------- *)

Definition float := spec_float.

Definition fadd : float -> float -> float := SFadd 53 1024.
Definition fsub : float -> float -> float := SFsub 53 1024.
Definition fmul : float -> float -> float := SFmul 53 1024.
Definition fdiv : float -> float -> float := SFdiv 53 1024.

Definition fzero : float := S754_zero false.

(** [x == 0.0]: both signed zeros, and nothing else. *)
Definition is_zero (x : float) : bool :=
  match x with S754_zero _ => true | _ => false end.

(** A number as Python holds it at run time. *)
Inductive num :=
  | Int (z : Z)
  | Float (x : float).

(** A rounded value that is too large for binary64 is the infinity; the
    conversions from [int] raise [OverflowError] there. *)
Definition finite_or_overflow (x : float) : result float :=
  match x with
  | S754_infinity _ => inl OverflowError
  | _ => inr x
  end.

(** [float(z)]: the nearest binary64 value, ties to even. *)
Definition float_of_int (z : Z) : result float :=
  finite_or_overflow (binary_normalize 53 1024 z 0 false).

(** The operand of a float operation: an [int] is converted first. *)
Definition to_float (a : num) : result float :=
  match a with Int z => float_of_int z | Float x => inr x end.

(** An [int] as an exact, unnormalised operand of a division. *)
Definition exact_int (z : Z) : float :=
  match z with
  | Z0 => S754_zero false
  | Zpos p => S754_finite false p 0
  | Zneg p => S754_finite true p 0
  end.

(** [a / b] on two [int]s: the true quotient rounded once to binary64
    (CPython rounds the exact quotient, not the quotient of two rounded
    operands). *)
Definition int_truediv (a b : Z) : result float :=
  if b =? 0 then inl ZeroDivisionError
  else finite_or_overflow (fdiv (exact_int a) (exact_int b)).

(** Truth value of a number: non-zero. *)
Definition truthy (a : num) : bool :=
  match a with
  | Int z => negb (z =? 0)
  | Float x => negb (is_zero x)
  end.

(** [a + b]. *)
Definition add (a b : num) : result num :=
  match a, b with
  | Int x, Int y => inr (Int (x + y))
  | _, _ =>
      and_then (to_float a) (fun x =>
      and_then (to_float b) (fun y =>
      inr (Float (fadd x y))))
  end.

(** [a * b]. *)
Definition mul (a b : num) : result num :=
  match a, b with
  | Int x, Int y => inr (Int (x * y))
  | _, _ =>
      and_then (to_float a) (fun x =>
      and_then (to_float b) (fun y =>
      inr (Float (fmul x y))))
  end.

(** [a / b]. *)
Definition truediv (a b : num) : result num :=
  match a, b with
  | Int x, Int y => and_then (int_truediv x y) (fun q => inr (Float q))
  | _, _ =>
      and_then (to_float a) (fun x =>
      and_then (to_float b) (fun y =>
      if is_zero y then inl ZeroDivisionError else inr (Float (fdiv x y))))
  end.

(* --------------------------------------------------------------------- *)
(** ** Fixed-point formatting: [f"{x:.df}"] *)
(* --------------------------------------------------------------------- *)

(** [num / den] rounded to the nearest integer, ties to even
    ([0 <= num], [0 < den]). *)
Definition round_half_even (num den : Z) : Z :=
  let q := num / den in
  match (2 * (num mod den)) ?= den with
  | Lt => q
  | Gt => q + 1
  | Eq => if Z.even q then q else q + 1
  end.

(** [|x| * 10^d] rounded to an integer, for a finite [x]. *)
Definition scaled (d : nat) (m : positive) (e : Z) : Z :=
  let t := Z.pos m * 10 ^ Z.of_nat d in
  if 0 <=? e then t * 2 ^ e else round_half_even t (2 ^ (- e)).

Definition decimal (z : Z) : str :=
  lit (NilZero.string_of_uint (N.to_uint (Z.to_N z))).

(** The digits of [q] with a point before the last [d] of them, padded
    with zeros so that one digit at least stands before the point. *)
Definition place_point (d : nat) (q : Z) : str :=
  let ds := decimal q in
  let ds := replicate (S d - length ds) 48%N ++ ds in
  let k := (length ds - d)%nat in
  match d with
  | O => ds
  | _ => take k ds ++ 46%N :: drop k ds
  end.

Definition sign_of (s : bool) : str := if s then lit "-" else [].

(** [f"{x:.df}"] on a [float]. *)
Definition format_float (d : nat) (x : float) : str :=
  match x with
  | S754_zero s => sign_of s ++ place_point d 0
  | S754_infinity s => sign_of s ++ lit "inf"
  | S754_nan => lit "nan"
  | S754_finite s m e => sign_of s ++ place_point d (scaled d m e)
  end.

(** [f"{a:.df}"] on a number: an [int] is converted first. *)
Definition format_f (d : nat) (a : num) : result str :=
  and_then (to_float a) (fun x => inr (format_float d x)).

(* --------------------------------------------------------------------- *)
(** ** Dictionaries *)
(* --------------------------------------------------------------------- *)

Section Dict.
Context {K V : Type} `{EqDecision K}.

(** Entries in insertion order. *)
Definition dict := list (K * V).

(** [d.get(k)]. *)
Fixpoint get (k : K) (d : dict) : option V :=
  match d with
  | [] => None
  | (k', v) :: d' => if decide (k = k') then Some v else get k d'
  end.

(** [d.get(k, dflt)]: a missing key is not inserted. *)
Definition get_or (k : K) (dflt : V) (d : dict) : V :=
  default dflt (get k d).

(** [d[k] = v]: an existing entry keeps its place, a new one goes
    last. *)
Fixpoint setitem (k : K) (v : V) (d : dict) : dict :=
  match d with
  | [] => [(k, v)]
  | (k', v') :: d' =>
      if decide (k = k') then (k', v) :: d' else (k', v') :: setitem k v d'
  end.

(** [d[k]] on a [defaultdict] whose factory returns [dflt]: a missing
    key is inserted with the default. The value and the dictionary
    after the access. *)
Definition getitem_default (dflt : V) (k : K) (d : dict) : V * dict :=
  match get k d with
  | Some v => (v, d)
  | None => (dflt, setitem k dflt d)
  end.

(** [d[k] = f(d[k])] on a [defaultdict]: the read inserts the default,
    the write replaces it; the pattern behind [d[k] += 1] and
    [d[k].append(x)], where the list appended to is the one the entry
    holds. *)
Definition update_default (dflt : V) (f : V -> V) (k : K) (d : dict) : dict :=
  let '(v, d1) := getitem_default dflt k d in
  setitem k (f v) d1.

Definition items (d : dict) : list (K * V) := d.
Definition values (d : dict) : list V := snd <$> d.
Definition keys (d : dict) : list K := fst <$> d.
End Dict.

Arguments dict : clear implicits.

(** [sum(l)] on integers. *)
Definition isum (l : list Z) : Z := fold_left Z.add l 0.

(** [sum(c > 1 for c in l)]: each [True] counts for one. *)
Definition sum_gt1 (l : list Z) : Z :=
  isum ((fun c => if 1 <? c then 1 else 0) <$> l).

(* --------------------------------------------------------------------- *)
(** ** [sorted] *)
(* --------------------------------------------------------------------- *)

Section Sorting.
Context {A B : Type}.
Variable ltb : B -> B -> bool.
Variable key : A -> B.

(** [x] goes before the first element whose key is not below its own,
    so elements with equal keys keep their order: the sort is stable,
    as Python's is. *)
Fixpoint insert (x : A) (l : list A) : list A :=
  match l with
  | [] => [x]
  | y :: l' => if ltb (key y) (key x) then y :: insert x l' else x :: l
  end.

(** [sorted(l, key=key)]. *)
Definition sorted (l : list A) : list A := foldr insert [] l.
End Sorting.

(** [<] on pairs [(int, str)]: the first components decide unless they
    are equal. *)
Definition pair_ltb (a b : Z * str) : bool :=
  if negb (a.1 =? b.1) then a.1 <? b.1 else str_ltb a.2 b.2.


(** [str(z)], also what [f"{z}"] gives for an [int]. *)
Definition str_of_int (z : Z) : str :=
  if z <? 0 then lit "-" ++ decimal (- z) else decimal z.

End Py.

(* ===================================================================== *)
(** * The predictor object *)
(* ===================================================================== *)

(** A context key: the tuple of the preceding tokens. *)
Definition context := list Py.str.

(** The attributes [__init__] creates. [model] is the
    [defaultdict(list)] from a context to its followers. *)
Record predictor := Predictor {
  model : Py.dict context (list Py.str);
  trained : bool;
  training_time : Py.num;
  vocab_size : Z;
  unique_transitions : Z;
  total_transitions : Z;
  f1_score : Py.num;
  file_size : Z;
  file_name : Py.str
}.

Definition with_model v (p : predictor) :=
  Predictor v (trained p) (training_time p) (vocab_size p)
    (unique_transitions p) (total_transitions p) (f1_score p)
    (file_size p) (file_name p).
Definition with_trained v (p : predictor) :=
  Predictor (model p) v (training_time p) (vocab_size p)
    (unique_transitions p) (total_transitions p) (f1_score p)
    (file_size p) (file_name p).
Definition with_training_time v (p : predictor) :=
  Predictor (model p) (trained p) v (vocab_size p)
    (unique_transitions p) (total_transitions p) (f1_score p)
    (file_size p) (file_name p).
Definition with_vocab_size v (p : predictor) :=
  Predictor (model p) (trained p) (training_time p) v
    (unique_transitions p) (total_transitions p) (f1_score p)
    (file_size p) (file_name p).
Definition with_unique_transitions v (p : predictor) :=
  Predictor (model p) (trained p) (training_time p) (vocab_size p)
    v (total_transitions p) (f1_score p) (file_size p) (file_name p).
Definition with_total_transitions v (p : predictor) :=
  Predictor (model p) (trained p) (training_time p) (vocab_size p)
    (unique_transitions p) v (f1_score p) (file_size p) (file_name p).
Definition with_f1_score v (p : predictor) :=
  Predictor (model p) (trained p) (training_time p) (vocab_size p)
    (unique_transitions p) (total_transitions p) v
    (file_size p) (file_name p).

(** [MarkovChainTextPredictor()]. *)
Definition init : predictor :=
  {| model := [];
     trained := false;
     training_time := Py.Int 0;
     vocab_size := 0;
     unique_transitions := 0;
     total_transitions := 0;
     f1_score := Py.Int 0;
     file_size := 0;
     file_name := [] |}.

(* --------------------------------------------------------------------- *)
(** ** Methods as computations on the object *)
(* --------------------------------------------------------------------- *)

(** The outcome of a call and the object after it. *)
Definition M (A : Type) : Type := predictor -> Py.result A * predictor.

Definition ret {A} (a : A) : M A := fun p => (inr a, p).

Definition bind {A B} (m : M A) (k : A -> M B) : M B :=
  fun p => match m p with
           | (inl e, p') => (inl e, p')
           | (inr a, p') => k a p'
           end.

Definition raise {A} (e : Py.exn) : M A := fun p => (inl e, p).

(** Read an attribute; assign to the object. *)
Definition gets {A} (f : predictor -> A) : M A := fun p => (inr (f p), p).
Definition modify (f : predictor -> predictor) : M unit :=
  fun p => (inr tt, f p).

(** A built-in that may raise, called from a method. *)
Definition call {A} (r : Py.result A) : M A :=
  match r with inl e => raise e | inr a => ret a end.

Declare Scope py_scope.
Delimit Scope py_scope with py.
Notation "x <- m ;; k" := (bind m (fun x => k))
  (at level 100, m at next level, right associativity) : py_scope.
Notation "m ;; k" := (bind m (fun _ => k))
  (at level 100, right associativity) : py_scope.
Local Open Scope py_scope.

(** [for x in l: acc = body(x, acc)], the loop variables in [acc]. *)
Fixpoint for_each {A T} (l : list A) (body : A -> T -> M T) (acc : T) : M T :=
  match l with
  | [] => ret acc
  | x :: l' => acc' <- body x acc ;; for_each l' body acc'
  end.

(** The table of the scan: how often each (context, follower) pair was
    seen. A local [defaultdict(int)] of [train]. *)
Definition counts := Py.dict (context * Py.str) Z.

(** The body of the loop of [train] at index [i]. *)
Definition scan_step (tokens : list Py.str) (n : Z) (i : Z)
    (transition_counts : counts) : M counts :=
  let key := Py.slice tokens (Some i) (Some (i + n - 1)) in
  next_word <- call (Py.index tokens (i + n - 1)) ;;
  modify (fun p =>
    with_model (Py.update_default [] (fun l => l ++ [next_word]) key (model p)) p) ;;
  ret (Py.update_default 0 (fun c => c + 1) (key, next_word) transition_counts).

(** The loop of [train]: fills [self.model] and returns the local
    [transition_counts]. *)
Definition scan (tokens : list Py.str) (n : Z) : M counts :=
  for_each (Py.range (Py.len tokens - n + 1)) (scan_step tokens n) [].

(** [x if c else 0] where [x] is a quotient of two [int]s. *)
Definition ratio_or_zero (a b : Z) : M Py.num :=
  if Py.truthy (Py.Int b)
  then x <- call (Py.int_truediv a b) ;; ret (Py.Float x)
  else ret (Py.Int 0).

(** [2 * (precision * recall) / (precision + recall)
    if (precision + recall) else 0], the condition first and the
    operands from left to right. *)
Definition harmonic (precision recall : Py.num) : M Py.num :=
  guard <- call (Py.add precision recall) ;;
  if Py.truthy guard
  then product <- call (Py.mul precision recall) ;;
       twice <- call (Py.mul (Py.Int 2) product) ;;
       total <- call (Py.add precision recall) ;;
       call (Py.truediv twice total)
  else ret (Py.Int 0).

(** [train], from its first line to the end of the loop: the object is
    cleared, the vocabulary counted and the corpus scanned; the local
    [transition_counts] is what the rest of [train] goes on with. *)
Definition train_scan (corpus : Py.str) (n : Z) : M counts :=
  modify (with_model []) ;;
  let tokens := Py.split corpus in
  modify (with_vocab_size (Py.len_set tokens)) ;;
  scan tokens n.

(** [train] after the loop: the statistics of the scan. [start_time]
    and [end_time] are the two readings of [time.time()]. *)
Definition train_metrics (transition_counts : counts)
    (start_time end_time : Py.float) : M unit :=
  modify (with_unique_transitions (Py.len transition_counts)) ;;
  modify (with_total_transitions (Py.isum (Py.values transition_counts))) ;;
  let correct := Py.sum_gt1 (Py.values transition_counts) in
  unique <- gets unique_transitions ;;
  precision <- ratio_or_zero correct unique ;;
  total <- gets total_transitions ;;
  recall <- ratio_or_zero correct total ;;
  f1 <- harmonic precision recall ;;
  modify (with_f1_score f1) ;;
  modify (with_training_time (Py.Float (Py.fsub end_time start_time))) ;;
  modify (with_trained true).

(** [train(corpus, n)]. *)
Definition train (corpus : Py.str) (n : Z) (start_time end_time : Py.float)
    : M unit :=
  transition_counts <- train_scan corpus n ;;
  train_metrics transition_counts start_time end_time.

(** The two messages [predict_next] answers with instead of words. *)
Definition msg_not_trained : Py.str :=
  [9888; 65039]%N ++ Py.lit " Please load training data first".
Definition msg_no_predictions : Py.str :=
  [129302]%N ++ Py.lit " No predictions available".

Definition is_empty {A} (l : list A) : bool :=
  match l with [] => true | _ => false end.

(** The sort key of an item of [freq]: [(-count, word)]. *)
Definition rank_key (x : Py.str * Z) : Z * Py.str := (- x.2, x.1).

(** [freq] after the counting loop over [candidates]. *)
Definition tally (candidates : list Py.str) : Py.dict Py.str Z :=
  fold_left (fun freq word => Py.update_default 0 (fun c => c + 1) word freq)
            candidates [].

(** [predict_next(text, top_k)]. *)
Definition predict_next (text : Py.str) (top_k : Z) : M (list Py.str) :=
  is_trained <- gets trained ;;
  if negb is_trained then ret [msg_not_trained] else
  let words := Py.split (Py.strip text) in
  if is_empty words then ret [] else
  let key := Py.slice words (Some (-1)) None in
  candidates <- gets (fun p => Py.get_or key [] (model p)) ;;
  if is_empty candidates then ret [msg_no_predictions] else
  let freq := tally candidates in
  let sorted_words := Py.sorted Py.pair_ltb rank_key (Py.items freq) in
  ret (fst <$> Py.slice sorted_words None (Some top_k)).

(** The dictionary [get_stats] returns, one field per key. *)
Record stats := Stats {
  st_file_name : Py.str;
  st_file_size : Py.str;
  st_training_time : Py.str;
  st_vocab_size : Z;
  st_unique_transitions : Z;
  st_total_transitions : Z;
  st_f1_score : Py.str;
  st_compression_ratio : Py.str
}.

(** [get_stats()]: the entries are evaluated in the order they are
    written. *)
Definition get_stats : M stats :=
  p <- gets (fun self => self) ;;
  size_kb <- call (Py.int_truediv (file_size p) 1024) ;;
  size_text <- call (Py.format_f 1 (Py.Float size_kb)) ;;
  time_text <- call (Py.format_f 2 (training_time p)) ;;
  f1_text <- call (Py.format_f 3 (f1_score p)) ;;
  ratio_text <- (if Py.truthy (Py.Int (unique_transitions p))
                 then x <- call (Py.int_truediv (vocab_size p)
                                                (unique_transitions p)) ;;
                      text <- call (Py.format_f 1 (Py.Float x)) ;;
                      ret (text ++ Py.lit "x")
                 else ret (Py.lit "N/A")) ;;
  ret {| st_file_name := file_name p;
         st_file_size := size_text ++ Py.lit " KB";
         st_training_time := time_text ++ Py.lit " seconds";
         st_vocab_size := vocab_size p;
         st_unique_transitions := unique_transitions p;
         st_total_transitions := total_transitions p;
         st_f1_score := f1_text;
         st_compression_ratio := ratio_text |}.

(** The outcome of a call, and the object it leaves. *)
Definition outcome {A} (m : M A) (p : predictor) : Py.result A := (m p).1.
Definition after {A} (m : M A) (p : predictor) : predictor := (m p).2.

(** [self.predictor.file_size = v] and [self.predictor.file_name = v],
    the two assignments of [upload_file]. *)
Definition with_file_size v (p : predictor) :=
  Predictor (model p) (trained p) (training_time p) (vocab_size p)
    (unique_transitions p) (total_transitions p) (f1_score p)
    v (file_name p).
Definition with_file_name v (p : predictor) :=
  Predictor (model p) (trained p) (training_time p) (vocab_size p)
    (unique_transitions p) (total_transitions p) (f1_score p)
    (file_size p) v.

(** The objects on which no [train] call has returned yet: a new
    object, and what becomes of such an object when [upload_file]
    stores the size and the name of a file (the size is a position in
    the file, so not negative) or when a [train] call raises.
    [predict_next] and [get_stats] leave the object as it is. *)
Inductive untrained : predictor -> Prop :=
  | untrained_init : untrained init
  | untrained_file p size name :
      untrained p -> 0 <= size ->
      untrained (with_file_name name (with_file_size size p))
  | untrained_raised p corpus n s e err :
      untrained p ->
      outcome (train corpus n s e) p = inl err ->
      untrained (after (train corpus n s e) p).

(* ===================================================================== *)
(** * The application around the predictor *)
(* ===================================================================== *)

(** What [process_input], [add_message] and [clear_chat] of
    [PredictionApp] work on: the text of the entry field
    [self.user_input], the text put into [self.chat_display], and
    [self.predictor]. *)
Record app := App {
  user_input : Py.str;
  chat_display : Py.str;
  the_predictor : predictor
}.

Definition newline : Py.str := [10%N].

(** [add_message(text)]: the text and an empty line go to the end of
    the display. *)
Definition add_message (text : Py.str) (a : app) : app :=
  {| user_input := user_input a;
     chat_display := chat_display a ++ text ++ newline ++ newline;
     the_predictor := the_predictor a |}.

(** [clear_chat()]. *)
Definition clear_chat (a : app) : app :=
  add_message (Py.lit "Chat cleared. Model remains trained.")
    {| user_input := user_input a;
       chat_display := [];
       the_predictor := the_predictor a |}.



(** What [show_statistics] puts on the screen: the warning box with its
    title and message, or the window with its rows, each a label and a
    value that is a text or a number. *)
Inductive cell :=
  | Text (s : Py.str)
  | Number (z : Z).
Inductive shown :=
  | ShowWarning (title message : Py.str)
  | StatsWindow (metrics : list (Py.str * cell)).

(** The list [metrics] of [show_statistics]. *)
Definition metrics_of (stats : stats) : list (Py.str * cell) :=
  [ (Py.lit "Training File:", Text (st_file_name stats));
    (Py.lit "File Size:", Text (st_file_size stats));
    (Py.lit "Training Time:", Text (st_training_time stats));
    (Py.lit "Vocabulary Size:",
       Text (Py.str_of_int (st_vocab_size stats) ++ Py.lit " words"));
    (Py.lit "Unique Transitions:", Number (st_unique_transitions stats));
    (Py.lit "Total Transitions:", Number (st_total_transitions stats));
    (Py.lit "F1 Score:", Text (st_f1_score stats));
    (Py.lit "Compression Ratio:", Text (st_compression_ratio stats)) ].

(** [show_statistics()]: the test of the trained flag comes first, and
    [get_stats] is called only when it passes. *)
Definition show_statistics (a : app) : Py.result shown * app :=
  if negb (trained (the_predictor a))
  then (inr (ShowWarning (Py.lit "No Data")
                         (Py.lit "Please train the model first")), a)
  else
    match get_stats (the_predictor a) with
    | (inl e, p) =>
        (inl e, {| user_input := user_input a;
                   chat_display := chat_display a;
                   the_predictor := p |})
    | (inr stats, p) =>
        (inr (StatsWindow (metrics_of stats)),
         {| user_input := user_input a;
            chat_display := chat_display a;
            the_predictor := p |})
    end.

(* ===================================================================== *)
(** * Notions the properties are stated with *)
(* ===================================================================== *)

(** The number of occurrences of [x] in [l]. *)
Definition occ `{EqDecision A} (x : A) (l : list A) : Z :=
  Z.of_nat (length (filter (x =.) l)).

(** The dictionary a counting loop builds from [d]:
    [for x in l: d[x] += 1]. *)
Definition count_all `{EqDecision A} (l : list A) (d : Py.dict A Z) : Py.dict A Z :=
  fold_left (fun d x => Py.update_default 0 (fun c => c + 1) x d) l d.

(** The window of [n] consecutive tokens that starts at position [i]:
    its first [n-1] tokens are the context, its last token the
    follower. *)
Definition window_at (tokens : list Py.str) (n : Z) (i : nat) : context * Py.str :=
  (take (Z.to_nat (n - 1)) (drop i tokens),
   default [] (tokens !! (i + Z.to_nat (n - 1))%nat)).

(** All the windows of [n] consecutive tokens, from left to right. *)
Definition windows (tokens : list Py.str) (n : Z) : list (context * Py.str) :=
  window_at tokens n <$> seq 0 (Z.to_nat (Py.len tokens - n + 1)).

(** The index a scan builds from [d] when it sees [pairs] in order. *)
Definition record_all (pairs : list (context * Py.str))
    (d : Py.dict context (list Py.str)) : Py.dict context (list Py.str) :=
  fold_left (fun d kw => Py.update_default [] (fun l => l ++ [kw.2]) kw.1 d)
            pairs d.

(** The number of distinct pairs that occur more than once among
    [pairs]. *)
Definition repeated (pairs : list (context * Py.str)) : Z :=
  Py.len (filter (fun kw => 1 < occ kw pairs) (remove_dups pairs)).

(** [correct / unique], or zero when there is no transition. *)
Definition precision_of (correct unique : Z) : Py.float :=
  if unique =? 0 then Py.fzero
  else Py.fdiv (Py.exact_int correct) (Py.exact_int unique).

(** [correct / total], or zero when there is no transition. *)
Definition recall_of (correct total : Z) : Py.float :=
  if total =? 0 then Py.fzero
  else Py.fdiv (Py.exact_int correct) (Py.exact_int total).

(** The binary64 value 2. *)
Definition two : Py.float := S754_finite false 4503599627370496 (-51).

(** The harmonic mean [2 * (p * r) / (p + r)] in binary64, every
    operation rounded; zero when [p] and [r] are both zero. *)
Definition harmonic_mean (p r : Py.float) : Py.num :=
  if Py.is_zero p && Py.is_zero r then Py.Int 0
  else Py.Float (Py.fdiv (Py.fmul two (Py.fmul p r)) (Py.fadd p r)).

(** Lexicographic order on words: a proper prefix comes first, otherwise
    the first differing code point decides. *)
Inductive lex_lt : Py.str -> Py.str -> Prop :=
  | lex_lt_nil c b : lex_lt [] (c :: b)
  | lex_lt_head c1 c2 a b : (c1 < c2)%N -> lex_lt (c1 :: a) (c2 :: b)
  | lex_lt_tail c a b : lex_lt a b -> lex_lt (c :: a) (c :: b).

(** [a] ranks before [b] among the followers [l]: more occurrences, or as
    many and the smaller word. *)
Definition ranks_before (l : list Py.str) (a b : Py.str) : Prop :=
  occ b l < occ a l \/ (occ a l = occ b l /\ lex_lt a b).

(** [x] is not after [y] in the order of the keys: the key of [y] is not
    below that of [x]. *)
Definition not_after {A B} (ltb : B -> B -> bool) (key : A -> B) (x y : A) : Prop :=
  ltb (key y) (key x) = false.

(** The least exponent of a binary64 value. *)
Definition emin64 : Z := -1074.

(** What a sum needs of its two operands to be zero only when both
    are: no negative sign and no exponent below the least one. *)
Definition nonneg (x : Py.float) : Prop :=
  match x with
  | S754_finite s _ e => s = false /\ emin64 <= e
  | _ => True
  end.

(* --------------------------------------------------------------------- *)
(** ** The scenarios *)
(* --------------------------------------------------------------------- *)

Definition cat_corpus : Py.str := Py.lit "the cat sat on the mat the cat ran".
Definition the : Py.str := Py.lit "the".
Definition cat : Py.str := Py.lit "cat".
Definition mat : Py.str := Py.lit "mat".

Definition abc_corpus : Py.str := Py.lit "a b c a b d".

(** Two readings of the clock, 1000 units in the last place apart (about
    a quarter of a millisecond). *)
Definition clock_start : Py.float := S754_finite false 7391062799155200 (-22).
Definition clock_end : Py.float := S754_finite false 7391062799156200 (-22).

Definition cat_model : predictor := after (train cat_corpus 2 Py.fzero Py.fzero) init.

(** A corpus for a model of order three, and its words. *)
Definition tobe_corpus : Py.str := Py.lit "to be or not to be or to be fair".
Definition to_ : Py.str := Py.lit "to".
Definition be : Py.str := Py.lit "be".
Definition or_ : Py.str := Py.lit "or".
Definition fair : Py.str := Py.lit "fair".

(** An object that is not new and was never trained: the size and the
    name of a file were stored, then [train] on "a b" with [n = -5]
    raised. *)
Definition stored_file : predictor :=
  with_file_name (Py.lit "f.txt") (with_file_size 2048 init).
Definition never_trained : predictor :=
  after (train (Py.lit "a b") (-5) Py.fzero Py.fzero) stored_file.

(** The claim C2 as the specification words it, with
    [unique_transitions = 6]. *)
Definition cat_scenario_as_specified (s e : Py.float) (p : predictor) : Prop :=
  let p' := after (train cat_corpus 2 s e) p in
  Py.get [the] (model p') = Some [cat; mat; cat]
  /\ tally [cat; mat; cat] = [(cat, 2); (mat, 1)]
  /\ outcome (predict_next the 2) p' = inr [cat; mat]
  /\ vocab_size p' = 6
  /\ total_transitions p' = 8
  /\ unique_transitions p' = 6.

(** The claim C6 as the specification words it: after [train] on the
    empty corpus every [predict_next] call answers that no prediction is
    available. *)
Definition empty_corpus_as_specified (n : Z) (s e : Py.float) (p : predictor) : Prop :=
  let p' := after (train [] n s e) p in
  outcome (train [] n s e) p = inr tt
  /\ trained p' = true
  /\ vocab_size p' = 0
  /\ model p' = []
  /\ forall text top_k,
       outcome (predict_next text top_k) p' = inr [msg_no_predictions].

(** A value [get_stats] returns after some successful [train]. *)
Definition stats_after_training (r : Py.result stats) : Prop :=
  exists corpus n s e p,
    2 <= n
    /\ outcome (train corpus n s e) p = inr tt
    /\ outcome get_stats (after (train corpus n s e) p) = r.

(** The claim C7 as the specification words it: on an object that was
    never trained, [get_stats] returns something no trained object
    returns. *)
Definition get_stats_signals_not_trained : Prop :=
  forall p, trained p = false -> ~ stats_after_training (outcome get_stats p).

(* --------------------------------------------------------------------- *)
(** ** Notions for the further properties *)
(* --------------------------------------------------------------------- *)

(** The followers of the context [k] among [pairs], in the order seen. *)
Definition followers_of (k : context) (pairs : list (context * Py.str))
    : list Py.str :=
  snd <$> filter (fun kw => kw.1 = k) pairs.

(** [x] comes right after [w] somewhere in [tokens]. *)
Definition follows (tokens : list Py.str) (w x : Py.str) : Prop :=
  exists i, tokens !! i = Some w /\ tokens !! S i = Some x.

(** A word as [split] yields them: not empty and free of white space. *)
Definition is_word (t : Py.str) : Prop :=
  t <> [] /\ Forall (fun c => Py.isspace c = false) t.

(** The tokens that come right after an occurrence of [w] in [tokens],
    in the order of the occurrences. *)
Fixpoint successors (w : Py.str) (tokens : list Py.str) : list Py.str :=
  match tokens with
  | t :: rest =>
      match rest with
      | x :: _ => if decide (t = w) then x :: successors w rest
                  else successors w rest
      | [] => []
      end
  | [] => []
  end.

(** The distinct words of [followers] as [predict_next] orders them,
    before it cuts the list to [top_k]. *)
Definition ranking (followers : list Py.str) : list Py.str :=
  fst <$> Py.sorted Py.pair_ltb rank_key (Py.items (tally followers)).

(** The pair the loop of [train] records at position [i], for any [n]:
    the slice and the token as Python reads them there. *)
Definition scanned_at (tokens : list Py.str) (n : Z) (i : Z) : context * Py.str :=
  (Py.slice tokens (Some i) (Some (i + n - 1)),
   match Py.index tokens (i + n - 1) with inr x => x | inl _ => [] end).

(* ===================================================================== *)
(** * The built-ins on examples *)
(* ===================================================================== *)

Example split_demo :
  Py.split (Py.lit "  the cat	sat ") = [Py.lit "the"; Py.lit "cat"; Py.lit "sat"].
Proof. reflexivity. Qed.

Example slice_index_demo :
  Py.slice [1; 2; 3] (Some (-1)) None = [3]
  /\ Py.slice [1; 2; 3] None (Some (-1)) = [1; 2]
  /\ Py.slice [1; 2; 3] (Some 1) (Some 9) = [2; 3]
  /\ Py.slice [1; 2; 3] (Some 2) (Some 1) = []
  /\ Py.index [1; 2; 3] (-1) = inr 3
  /\ Py.index [1; 2; 3] 3 = inl Py.IndexError
  /\ Py.index (@nil Z) (-1) = inl Py.IndexError
  /\ Py.range (-2) = [] /\ Py.range 3 = [0; 1; 2].
Proof. repeat split. Qed.

Example sorted_demo :
  Py.sorted Py.pair_ltb rank_key
    [(Py.lit "b", 1); (Py.lit "a", 1); (Py.lit "c", 2); (Py.lit "ab", 1)]
  = [(Py.lit "c", 2); (Py.lit "a", 1); (Py.lit "ab", 1); (Py.lit "b", 1)].
Proof. vm_compute. reflexivity. Qed.

(** With [n = 0] the loop reads [tokens[-1]]: an [IndexError] on the
    empty corpus, raised after the index was cleared and before the flag
    is set. *)
Example train_raises :
  train [] 0 Py.fzero Py.fzero init = (inl Py.IndexError, init).
Proof. vm_compute. reflexivity. Qed.

Example truediv_third :
  Py.int_truediv 1 3 = inr (S754_finite false 6004799503160661 (-54))
  /\ Py.int_truediv (2 ^ 60 + 1) 3 = inr (S754_finite false 6004799503160661 6)
  /\ Py.int_truediv 0 5 = inr (S754_zero false)
  /\ Py.int_truediv 1 0 = inl Py.ZeroDivisionError
  /\ Py.int_truediv (10 ^ 400) 1 = inl Py.OverflowError
  /\ Py.float_of_int 2 = inr two.
Proof. repeat split; vm_compute; reflexivity. Qed.

Example format_demo :
  Py.format_f 2 (Py.Int 0) = inr (Py.lit "0.00")
  /\ Py.format_f 1 (Py.Float (S754_finite false 5 (-2))) = inr (Py.lit "1.2")
  /\ Py.format_f 1 (Py.Float (S754_finite false 7 (-2))) = inr (Py.lit "1.8")
  /\ Py.format_f 3 (Py.Float (S754_finite true 6004799503160661 (-54)))
     = inr (Py.lit "-0.333")
  /\ Py.format_f 1 (Py.Int 1234) = inr (Py.lit "1234.0")
  /\ Py.format_f 1 (Py.Int (10 ^ 400)) = inl Py.OverflowError.
Proof. repeat split; vm_compute; reflexivity. Qed.

(* ===================================================================== *)
(** * Facts about binary64 arithmetic *)
(* ===================================================================== *)

Module FloatFacts.

Lemma fexp64 e : fexp 53 1024 e = Z.max (e - 53) emin64.
Proof. reflexivity. Qed.

Lemma shr_1_m mrs : 0 <= shr_m mrs -> shr_m (shr_1 mrs) = shr_m mrs / 2.
Proof.
  destruct mrs as [m r s]; cbn [shr_m]; intros Hm.
  destruct m as [|[q|q|]|q]; unfold shr_1; cbn [shr_m];
    try reflexivity; try lia.
  - apply Z.div_unique with (r := 1); lia.
  - apply Z.div_unique with (r := 0); lia.
Qed.

Lemma iter_shr_1_m n mrs :
  0 <= shr_m mrs ->
  shr_m (SpecFloat.iter_pos shr_1 n mrs) = shr_m mrs / 2 ^ Z.pos n.
Proof.
  revert mrs; induction n as [n IH|n IH|]; intros mrs Hm; simpl SpecFloat.iter_pos.
  - assert (H1 : 0 <= shr_m (shr_1 mrs)).
    { rewrite shr_1_m by done. apply Z.div_pos; lia. }
    assert (H2 : 0 <= shr_m (SpecFloat.iter_pos shr_1 n (shr_1 mrs))).
    { rewrite IH by done. apply Z.div_pos; lia. }
    rewrite IH, IH, shr_1_m by done.
    rewrite !Z.div_div by lia. f_equal.
    replace (Z.pos n~1) with (1 + Z.pos n + Z.pos n) by lia.
    rewrite !Z.pow_add_r by lia. lia.
  - assert (H2 : 0 <= shr_m (SpecFloat.iter_pos shr_1 n mrs)).
    { rewrite IH by done. apply Z.div_pos; lia. }
    rewrite IH, IH by done.
    rewrite !Z.div_div by lia. f_equal.
    replace (Z.pos n~0) with (Z.pos n + Z.pos n) by lia.
    rewrite !Z.pow_add_r by lia. lia.
  - rewrite shr_1_m by done. reflexivity.
Qed.

Lemma digits2_lower p : 2 ^ (Z.pos (digits2_pos p) - 1) <= Z.pos p.
Proof.
  induction p as [p IH|p IH|]; simpl digits2_pos.
  - pose proof (Pos2Z.is_pos (digits2_pos p)) as Hd.
    replace (Z.pos (Pos.succ (digits2_pos p)) - 1)
      with (Z.succ (Z.pos (digits2_pos p) - 1)) by lia.
    rewrite Z.pow_succ_r by lia. lia.
  - pose proof (Pos2Z.is_pos (digits2_pos p)) as Hd.
    replace (Z.pos (Pos.succ (digits2_pos p)) - 1)
      with (Z.succ (Z.pos (digits2_pos p) - 1)) by lia.
    rewrite Z.pow_succ_r by lia. lia.
  - reflexivity.
Qed.

Lemma shr_record_of_loc_m m l : shr_m (shr_record_of_loc m l) = m.
Proof. destruct l as [|[]]; reflexivity. Qed.

(** Rounding a positive mantissa at an exponent that is not below the
    least one keeps it positive, and the exponent in range. *)
Lemma shr_fexp_pos m e l :
  0 < m -> emin64 <= e ->
  0 < shr_m (shr_fexp 53 1024 m e l).1 /\ emin64 <= (shr_fexp 53 1024 m e l).2.
Proof.
  intros Hm He. unfold shr_fexp. rewrite fexp64.
  destruct m as [|p|p]; try lia. cbn [Zdigits2].
  pose proof (digits2_lower p) as Hd.
  set (d := Z.pos (digits2_pos p)) in *.
  destruct (Z.max (d + e - 53) emin64 - e) as [|k|k] eqn:Hn; cbn [shr fst snd].
  - rewrite shr_record_of_loc_m. lia.
  - rewrite iter_shr_1_m by (rewrite shr_record_of_loc_m; lia).
    rewrite shr_record_of_loc_m. split; [|lia].
    assert (Hk : Z.pos k = d - 53) by lia.
    apply Z.div_str_pos. split; [apply Z.pow_pos_nonneg; lia|].
    etrans; [|exact Hd]. apply Z.pow_le_mono_r; lia.
  - rewrite shr_record_of_loc_m. lia.
Qed.

Lemma round_nearest_even_pos m l : 0 < m -> 0 < round_nearest_even m l.
Proof.
  intros Hm. unfold round_nearest_even.
  destruct l as [|[]]; try lia. destruct (Z.even m); lia.
Qed.

(** The result of a rounding is zero, infinite or finite with the sign
    it was given and an exponent in range. *)
Lemma binary_round_aux_nonneg m e l :
  nonneg (binary_round_aux 53 1024 false m e l).
Proof.
  unfold binary_round_aux.
  destruct (shr_fexp 53 1024 m e l) as [mrs1 e1].
  set (m2 := round_nearest_even _ _).
  destruct (shr_fexp 53 1024 m2 e1 loc_Exact) as [mrs2 e2] eqn:H2.
  destruct (shr_m mrs2) as [|q|q] eqn:Hq; try exact I.
  destruct (e2 <=? 1024 - 53); [|exact I].
  split; [done|].
  unfold shr_fexp in H2. rewrite fexp64 in H2. unfold shr in H2.
  destruct (Z.max (Zdigits2 m2 + e1 - 53) emin64 - e1) eqn:Hn;
    inversion H2; subst; lia.
Qed.

Lemma binary_round_aux_pos s m e l :
  0 < m -> emin64 <= e -> Py.is_zero (binary_round_aux 53 1024 s m e l) = false.
Proof.
  intros Hm He. unfold binary_round_aux.
  pose proof (shr_fexp_pos m e l Hm He) as [H1 H1e].
  destruct (shr_fexp 53 1024 m e l) as [mrs1 e1]. cbn [fst snd] in *.
  pose proof (round_nearest_even_pos _ (loc_of_shr_record mrs1) H1) as Hr.
  pose proof (shr_fexp_pos _ _ loc_Exact Hr H1e) as [H2 _].
  destruct (shr_fexp 53 1024 _ e1 loc_Exact) as [mrs2 e2]. cbn [fst] in H2.
  destruct (shr_m mrs2); try lia.
  destruct (_ <=? _); reflexivity.
Qed.

Lemma shl_align_exp m e e' :
  emin64 <= e -> emin64 <= e' -> emin64 <= (shl_align m e e').2.
Proof. intros. unfold shl_align. destruct (e' - e); cbn; lia. Qed.

Lemma binary_round_pos s m e :
  emin64 <= e -> Py.is_zero (binary_round 53 1024 s m e) = false.
Proof.
  intros He. unfold binary_round.
  pose proof (shl_align_exp m e (fexp 53 1024 (Z.pos (digits2_pos m) + e)) He) as Hs.
  destruct (shl_align _ _ _) as [mz ez]. cbn [snd] in Hs.
  apply binary_round_aux_pos; [lia|]. apply Hs. rewrite fexp64. lia.
Qed.

(** A sum of two such values is zero only when both are. *)
Lemma fadd_is_zero x y :
  nonneg x -> nonneg y ->
  Py.is_zero (Py.fadd x y) = Py.is_zero x && Py.is_zero y.
Proof.
  destruct x as [sx|sx| |sx mx ex], y as [sy|sy| |sy my ey];
    try (destruct sx, sy; reflexivity); try reflexivity.
  intros [-> Hx] [-> Hy]. unfold Py.fadd. cbn [Py.is_zero andb SFadd cond_Zopp].
  set (a := (shl_align mx ex _).1). set (b := (shl_align my ey _).1).
  change (Z.pos a + Z.pos b) with (Z.pos (a + b)).
  cbn [binary_normalize]. apply binary_round_pos. lia.
Qed.

(** The quotient of a natural number by a positive one is such a
    value. *)
Lemma ratio_nonneg a b :
  0 <= a -> 0 < b -> nonneg (Py.fdiv (Py.exact_int a) (Py.exact_int b)).
Proof.
  intros Ha Hb.
  destruct a as [|p|p], b as [|q|q]; try lia; try exact I.
  unfold Py.fdiv, Py.exact_int, SFdiv.
  destruct (SFdiv_core_binary _ _ _ _ _ _) as [[mz ez] lz].
  apply binary_round_aux_nonneg.
Qed.

Lemma digits2_upper m k : 0 <= m < 2 ^ k -> 0 <= k -> Zdigits2 m <= k.
Proof.
  intros [Hm Hk] Hk0. destruct m as [|p|p]; cbn [Zdigits2]; [lia| |lia].
  pose proof (digits2_lower p) as Hd.
  pose proof (Pos2Z.is_pos (digits2_pos p)) as Hpos.
  assert (Hlt : 2 ^ (Z.pos (digits2_pos p) - 1) < 2 ^ k) by lia.
  apply Z.pow_lt_mono_r_iff in Hlt; lia.
Qed.

(** A mantissa that is at most [2 ^ (c - e)] for a small [c] stays so
    under rounding, and its exponent stays at most zero. *)
Lemma shr_fexp_small c m e l :
  0 <= c <= 50 -> 0 <= m <= 2 ^ (c - e) -> e <= 0 ->
  0 <= shr_m (shr_fexp 53 1024 m e l).1
       <= 2 ^ (c - (shr_fexp 53 1024 m e l).2)
  /\ (shr_fexp 53 1024 m e l).2 <= 0.
Proof.
  intros Hc Hm He. unfold shr_fexp. rewrite fexp64.
  assert (Hd : Zdigits2 m <= c - e + 1).
  { apply digits2_upper; [|lia]. rewrite Z.pow_add_r by lia. lia. }
  destruct (Z.max (Zdigits2 m + e - 53) emin64 - e) as [|k|k] eqn:Hn;
    cbn [shr fst snd]; rewrite ?shr_record_of_loc_m; try lia.
  rewrite iter_shr_1_m by (rewrite shr_record_of_loc_m; lia).
  rewrite shr_record_of_loc_m. unfold emin64 in *.
  split; [|lia]. split; [apply Z.div_pos; lia|].
  replace (c - (e + Z.pos k)) with (c - e - Z.pos k) by lia.
  rewrite Z.pow_sub_r by lia.
  apply Z.div_le_mono; [lia|]. lia.
Qed.

Lemma round_nearest_even_bounds m l :
  m <= round_nearest_even m l <= m + 1.
Proof.
  unfold round_nearest_even. destruct l as [|[]]; try lia.
  destruct (Z.even m); lia.
Qed.

(** Rounding a value that is at most one gives zero or a finite
    value. *)
Lemma binary_round_aux_small s m e l :
  0 <= m <= 2 ^ (- e) -> e <= 0 ->
  match binary_round_aux 53 1024 s m e l with
  | S754_zero _ | S754_finite _ _ _ => True
  | _ => False
  end.
Proof.
  intros Hm He. unfold binary_round_aux.
  pose proof (shr_fexp_small 0 m e l ltac:(lia) Hm He) as [H1 H1e].
  destruct (shr_fexp 53 1024 m e l) as [mrs1 e1]. cbn [fst snd] in *.
  pose proof (round_nearest_even_bounds (shr_m mrs1) (loc_of_shr_record mrs1)) as Hr.
  set (m2 := round_nearest_even _ _) in *.
  assert (Hm2 : 0 <= m2 <= 2 ^ (1 - e1)).
  { replace (1 - e1) with (1 + (0 - e1)) by lia.
    rewrite Z.pow_add_r by lia.
    assert (0 < 2 ^ (0 - e1)) by (apply Z.pow_pos_nonneg; lia). lia. }
  pose proof (shr_fexp_small 1 m2 e1 loc_Exact ltac:(lia) Hm2 H1e) as [H2 H2e].
  destruct (shr_fexp 53 1024 m2 e1 loc_Exact) as [mrs2 e2]. cbn [fst snd] in *.
  destruct (shr_m mrs2) as [|q|q]; [exact I| |lia].
  destruct (e2 <=? 1024 - 53) eqn:Hle; [exact I|lia].
Qed.

(** The quotient of a positive integer by one that is not smaller is
    zero or finite. *)
Lemma fdiv_le_one_finite a b :
  (a <= b)%positive ->
  match Py.fdiv (S754_finite false a 0) (S754_finite false b 0) with
  | S754_zero _ | S754_finite _ _ _ => True
  | _ => False
  end.
Proof.
  intros Hab. unfold Py.fdiv, SFdiv, SFdiv_core_binary.
  rewrite !Z.add_0_r, Z.sub_diag, Z.sub_0_l.
  set (e' := Z.min _ 0).
  assert (He' : e' <= 0) by (unfold e'; lia).
  set (m' := match - e' with Z.pos _ => _ | 0 => _ | Z.neg _ => _ end).
  assert (Hm' : m' = Z.pos a * 2 ^ (- e')).
  { unfold m'. destruct (- e') as [|k|k] eqn:Hk; try lia.
    by rewrite Z.shiftl_mul_pow2. }
  pose proof (Z_div_mod m' (Z.pos b) ltac:(lia)) as Hdiv.
  destruct (Z.div_eucl m' (Z.pos b)) as [q r]. destruct Hdiv as [Hq Hr].
  apply binary_round_aux_small; [|done].
  assert (Hpow : 0 < 2 ^ (- e')) by (apply Z.pow_pos_nonneg; lia).
  split; [nia|]. nia.
Qed.

(** A count divided by a count that is not smaller: the division
    returns, with the rounded quotient. *)
Lemma int_truediv_le a b :
  0 <= a <= b -> 0 < b ->
  Py.int_truediv a b = inr (Py.fdiv (Py.exact_int a) (Py.exact_int b)).
Proof.
  intros Hab Hb. unfold Py.int_truediv.
  destruct (b =? 0) eqn:Hb0; [lia|].
  destruct a as [|p|p], b as [|q|q]; try lia; [reflexivity|].
  pose proof (fdiv_le_one_finite p q ltac:(lia)) as Hfin.
  cbn [Py.exact_int]. by destruct (Py.fdiv _ _).
Qed.

End FloatFacts.

(* ===================================================================== *)
(** * Facts about dictionaries *)
(* ===================================================================== *)

Module DictFacts.

Section Generic.
Context {K V : Type} `{EqDecision K}.
Implicit Types (d : Py.dict K V) (k : K) (v : V).

Lemma get_setitem k k' v d :
  Py.get k' (Py.setitem k v d) = if decide (k' = k) then Some v else Py.get k' d.
Proof.
  induction d as [|[k0 v0] d IH]; simpl.
  - repeat case_decide; congruence.
  - destruct (decide (k = k0)) as [->|Hne]; simpl;
      repeat case_decide; congruence.
Qed.

Lemma keys_setitem k v d :
  Py.keys (Py.setitem k v d) =
  match Py.get k d with Some _ => Py.keys d | None => Py.keys d ++ [k] end.
Proof.
  induction d as [|[k0 v0] d IH]; simpl; [done|].
  destruct (decide (k = k0)) as [->|Hne]; simpl; [done|].
  unfold Py.keys in *. rewrite IH. by destruct (Py.get k d).
Qed.

Lemma get_update_default dflt f k k' d :
  Py.get k' (Py.update_default dflt f k d) =
  if decide (k' = k) then Some (f (default dflt (Py.get k d))) else Py.get k' d.
Proof.
  unfold Py.update_default, Py.getitem_default.
  destruct (Py.get k d) as [v|] eqn:Hk; rewrite !get_setitem;
    repeat case_decide; simpl; congruence.
Qed.

Lemma keys_update_default dflt f k d :
  Py.keys (Py.update_default dflt f k d) =
  match Py.get k d with Some _ => Py.keys d | None => Py.keys d ++ [k] end.
Proof.
  unfold Py.update_default, Py.getitem_default.
  destruct (Py.get k d) as [v|] eqn:Hk; rewrite !keys_setitem.
  - by rewrite Hk.
  - rewrite get_setitem, decide_True by done. by rewrite Hk.
Qed.

Lemma get_Some_keys k d : is_Some (Py.get k d) <-> k ∈ Py.keys d.
Proof.
  induction d as [|[k0 v0] d IH]; simpl.
  - split; [by intros [? ?]|by intros ?%elem_of_nil].
  - rewrite elem_of_cons. case_decide; [|tauto].
    split; [by left|by eauto].
Qed.

Lemma get_None_keys k d : Py.get k d = None <-> k ∉ Py.keys d.
Proof. rewrite <- get_Some_keys, eq_None_not_Some. done. Qed.

(** With one entry per key, an item is what [get] finds. *)
Lemma get_item k v d :
  NoDup (Py.keys d) -> (k, v) ∈ d -> Py.get k d = Some v.
Proof.
  induction d as [|[k0 v0] d IH]; simpl; intros Hnd Hin.
  - by apply elem_of_nil in Hin.
  - apply NoDup_cons in Hnd as [Hk0 Hnd].
    apply elem_of_cons in Hin as [[= -> ->]|Hin].
    + by rewrite decide_True.
    + case_decide as Heq; [|by apply IH]. subst k0.
      exfalso. apply Hk0. unfold Py.keys.
      apply list_elem_of_fmap. by exists (k, v).
Qed.
End Generic.

Lemma fold_add l a : fold_left Z.add l a = a + Py.isum l.
Proof.
  unfold Py.isum. revert a; induction l as [|x l IH]; intros a; simpl; [lia|].
  rewrite (IH (a + x)), (IH (0 + x)). lia.
Qed.

Lemma isum_cons x l : Py.isum (x :: l) = x + Py.isum l.
Proof. unfold Py.isum at 1. simpl. apply fold_add. Qed.

Section Counting.
Context {A : Type} `{EqDecision A}.
Implicit Types (l : list A) (d : Py.dict A Z) (x y : A).

Lemma occ_nil x : occ x [] = 0.
Proof. reflexivity. Qed.

Lemma occ_cons x y l :
  occ x (y :: l) = (if decide (x = y) then 1 else 0) + occ x l.
Proof.
  unfold occ. rewrite filter_cons. case_decide; simpl; lia.
Qed.

Lemma occ_nonneg x l : 0 <= occ x l.
Proof. unfold occ. lia. Qed.

Lemma occ_pos x l : 0 < occ x l <-> x ∈ l.
Proof.
  induction l as [|y l IH].
  - rewrite occ_nil, elem_of_nil. lia.
  - rewrite occ_cons, elem_of_cons. pose proof (occ_nonneg x l).
    case_decide; [intuition lia|]. rewrite <- IH. intuition lia.
Qed.

Lemma count_all_cons x l d :
  count_all (x :: l) d = count_all l (Py.update_default 0 (fun c => c + 1) x d).
Proof. reflexivity. Qed.

(** The count of [x] grows by its occurrences in [l]. *)
Lemma get_count_all x l d :
  Py.get x (count_all l d) =
  if decide (x ∈ l) then Some (default 0 (Py.get x d) + occ x l)
  else Py.get x d.
Proof.
  revert d; induction l as [|y l IH]; intros d.
  - by rewrite decide_False by apply not_elem_of_nil.
  - rewrite count_all_cons, IH, get_update_default, occ_cons.
    pose proof (occ_pos x l) as Hocc.
    destruct (decide (x = y)) as [->|Hne].
    + rewrite (decide_True (P := y ∈ y :: l)) by apply list_elem_of_here.
      case_decide as Hin; simpl; [f_equal; lia|].
      f_equal. assert (~ 0 < occ y l) by (by rewrite Hocc).
      pose proof (occ_nonneg y l). lia.
    + destruct (decide (x ∈ l)) as [Hin|Hin].
      * rewrite decide_True by (by apply list_elem_of_further). f_equal; lia.
      * rewrite decide_False; [done|]. rewrite elem_of_cons. tauto.
Qed.

Lemma NoDup_keys_count_all l d :
  NoDup (Py.keys d) -> NoDup (Py.keys (count_all l d)).
Proof.
  revert d; induction l as [|y l IH]; intros d Hnd; [done|].
  rewrite count_all_cons. apply IH. rewrite keys_update_default.
  destruct (Py.get y d) eqn:Hy; [done|].
  apply NoDup_app. split_and!; [done| |apply NoDup_singleton].
  intros k Hk ->%list_elem_of_singleton. by apply get_None_keys in Hy.
Qed.

Lemma elem_of_keys_count_all x l d :
  x ∈ Py.keys (count_all l d) <-> x ∈ Py.keys d \/ x ∈ l.
Proof.
  rewrite <- !get_Some_keys, get_count_all.
  case_decide; [|tauto]. split; [by right|by eauto].
Qed.

Lemma isum_values_setitem x c d :
  Py.isum (Py.values (Py.setitem x c d)) =
  Py.isum (Py.values d) + c - default 0 (Py.get x d).
Proof.
  unfold Py.values. induction d as [|[y c0] d IH].
  - cbn. lia.
  - cbn [Py.setitem Py.get]. case_decide;
      rewrite !fmap_cons, !isum_cons; cbn [snd default from_option id]; [lia|].
    rewrite IH. lia.
Qed.

Lemma isum_values_count_all l d :
  Py.isum (Py.values (count_all l d)) = Py.isum (Py.values d) + Py.len l.
Proof.
  revert d; induction l as [|y l IH]; intros d.
  - unfold Py.len. simpl. lia.
  - rewrite count_all_cons, IH. unfold Py.len. rewrite length_cons.
    unfold Py.update_default, Py.getitem_default.
    destruct (Py.get y d) as [c|] eqn:Hy;
      rewrite !isum_values_setitem, ?get_setitem, ?decide_True, ?Hy by done;
      simpl; lia.
Qed.

(** From the empty dictionary: the distinct elements of [l], each with
    its number of occurrences. *)
Lemma count_all_items l :
  count_all l [] = (fun x => (x, occ x l)) <$> Py.keys (count_all l []).
Proof.
  pose proof (NoDup_keys_count_all l [] (NoDup_nil_2)) as Hnd.
  assert (Hall : forall x c, (x, c) ∈ count_all l [] -> c = occ x l).
  { intros x c Hin. pose proof (get_item _ _ _ Hnd Hin) as Hget.
    rewrite get_count_all in Hget. case_decide; [|done].
    simpl in Hget. injection Hget as <-. lia. }
  unfold Py.keys. rewrite <- list_fmap_compose.
  revert Hall. generalize (count_all l []) as d.
  induction d as [|[x c] d IH]; intros Hall; [done|].
  rewrite fmap_cons. f_equal.
  - simpl. f_equal. apply Hall, list_elem_of_here.
  - apply IH. intros y c' Hin. by apply Hall, list_elem_of_further.
Qed.

Lemma keys_count_all_perm l : Py.keys (count_all l []) ≡ₚ remove_dups l.
Proof.
  apply NoDup_Permutation.
  - apply NoDup_keys_count_all, NoDup_nil_2.
  - apply NoDup_remove_dups.
  - intros x. rewrite elem_of_keys_count_all, elem_of_remove_dups.
    unfold Py.keys. simpl. rewrite elem_of_nil. tauto.
Qed.

Lemma values_count_all l :
  Py.values (count_all l []) = (fun x => occ x l) <$> Py.keys (count_all l []).
Proof.
  unfold Py.values. rewrite (count_all_items l) at 1.
  rewrite <- list_fmap_compose. done.
Qed.
End Counting.

End DictFacts.

(* ===================================================================== *)
(** * The scan of the corpus *)
(* ===================================================================== *)

Module ScanFacts.

Lemma slice_window {A} (l : list A) (i n : Z) :
  0 <= i -> 1 <= n -> i + n - 1 <= Py.len l ->
  Py.slice l (Some i) (Some (i + n - 1)) =
  take (Z.to_nat (n - 1)) (drop (Z.to_nat i) l).
Proof.
  intros Hi Hn Hlen. unfold Py.slice, Py.clip.
  destruct (i <? 0) eqn:H1; [lia|].
  destruct (i + n - 1 <? 0) eqn:H2; [lia|].
  rewrite !Z.min_l by lia. f_equal. f_equal. lia.
Qed.

Lemma index_inside {A} (l : list A) (i : Z) (x : A) :
  0 <= i -> l !! Z.to_nat i = Some x -> Py.index l i = inr x.
Proof.
  intros Hi Hx. unfold Py.index.
  pose proof (lookup_lt_Some _ _ _ Hx) as Hlt. unfold Py.len.
  destruct (i <? 0) eqn:H1; [lia|].
  destruct (0 <=? i) eqn:H2; [|lia].
  destruct (i <? Z.of_nat (length l)) eqn:H3; [|lia].
  by rewrite Hx.
Qed.

(** One turn of the loop at a position where a whole window fits. *)
Lemma scan_step_window tokens n (i : nat) tc p :
  1 <= n -> Z.of_nat i + n <= Py.len tokens ->
  scan_step tokens n (Z.of_nat i) tc p =
  (inr (count_all [window_at tokens n i] tc),
   with_model (record_all [window_at tokens n i] (model p)) p).
Proof.
  intros Hn Hi. unfold scan_step, bind, window_at.
  rewrite slice_window by lia. rewrite Nat2Z.id.
  destruct (tokens !! (i + Z.to_nat (n - 1))%nat) as [w|] eqn:Hw.
  - assert (Hidx : Py.index tokens (Z.of_nat i + n - 1) = inr w).
    { apply index_inside; [lia|].
      replace (Z.to_nat (Z.of_nat i + n - 1)) with (i + Z.to_nat (n - 1))%nat
        by lia.
      exact Hw. }
    rewrite Hidx. reflexivity.
  - apply lookup_ge_None in Hw. unfold Py.len, Py.str in *. exfalso. lia.
Qed.

(** The loop over positions that all hold a whole window. *)
Lemma for_each_windows tokens n (js : list nat) tc p :
  1 <= n -> (forall i, i ∈ js -> Z.of_nat i + n <= Py.len tokens) ->
  for_each (Z.of_nat <$> js) (scan_step tokens n) tc p =
  (inr (count_all (window_at tokens n <$> js) tc),
   with_model (record_all (window_at tokens n <$> js) (model p)) p).
Proof.
  intros Hn. revert tc p. induction js as [|i js IH]; intros tc p Hall.
  - by destruct p.
  - rewrite !fmap_cons. cbn [for_each]. unfold bind at 1.
    rewrite scan_step_window by (try done; apply Hall, list_elem_of_here).
    rewrite IH by (intros j Hj; by apply Hall, list_elem_of_further).
    reflexivity.
Qed.

(** The loop of [train] for [n >= 1]: it does not raise, counts the
    windows and records them in the index. *)
Lemma scan_run tokens n p :
  1 <= n ->
  scan tokens n p =
  (inr (count_all (windows tokens n) []),
   with_model (record_all (windows tokens n) (model p)) p).
Proof.
  intros Hn. unfold scan, Py.range, windows.
  apply for_each_windows; [done|].
  intros i Hi%elem_of_seq. lia.
Qed.

Lemma train_scan_run corpus n p :
  1 <= n ->
  train_scan corpus n p =
  (inr (count_all (windows (Py.split corpus) n) []),
   with_model (record_all (windows (Py.split corpus) n) [])
     (with_vocab_size (Py.len_set (Py.split corpus)) p)).
Proof.
  intros Hn. unfold train_scan, bind, modify. by rewrite scan_run.
Qed.

Lemma length_windows tokens n :
  Py.len (windows tokens n) = Z.max 0 (Py.len tokens - n + 1).
Proof. unfold windows, Py.len. rewrite length_fmap, length_seq. lia. Qed.

Lemma windows_short tokens n : Py.len tokens < n -> windows tokens n = [].
Proof.
  intros H. unfold windows.
  replace (Z.to_nat (Py.len tokens - n + 1)) with 0%nat by lia. done.
Qed.

End ScanFacts.

(* ===================================================================== *)
(** * Orders: words, sort keys, and [sorted] *)
(* ===================================================================== *)

Module OrderFacts.

Lemma str_ltb_lex a b : Py.str_ltb a b = true <-> lex_lt a b.
Proof.
  revert b; induction a as [|x a IH]; intros [|y b]; simpl.
  - split; [done|inversion 1].
  - split; [constructor|done].
  - split; [done|inversion 1].
  - destruct (x <? y)%N eqn:Hxy.
    + apply N.ltb_lt in Hxy. split; [by constructor|done].
    + apply N.ltb_ge in Hxy. destruct (y <? x)%N eqn:Hyx.
      * apply N.ltb_lt in Hyx. split; [done|]. inversion 1; subst; lia.
      * apply N.ltb_ge in Hyx. assert (x = y) as -> by lia.
        rewrite IH. split; [by constructor|]. inversion 1; subst; [lia|done].
Qed.

Lemma lex_lt_irrefl a : ~ lex_lt a a.
Proof. induction a as [|x a IH]; inversion 1; subst; [lia|done]. Qed.

Lemma lex_lt_trans a b c : lex_lt a b -> lex_lt b c -> lex_lt a c.
Proof.
  intros Hab; revert c; induction Hab as [x b|x y a b Hxy|x a b Hab IH];
    intros c Hbc; inversion Hbc; subst;
    first [ apply lex_lt_nil | apply lex_lt_head; lia
          | apply lex_lt_tail; by apply IH ].
Qed.

Lemma lex_lt_trichotomy a b : lex_lt a b \/ a = b \/ lex_lt b a.
Proof.
  revert b; induction a as [|x a IH]; intros [|y b].
  - by right; left.
  - left; constructor.
  - right; right; constructor.
  - destruct (N.lt_trichotomy x y) as [H|[->|H]].
    + left; by constructor.
    + destruct (IH b) as [H|[->|H]];
        [left|right; left|right; right]; (done || by constructor).
    + right; right; by constructor.
Qed.

(** The order of the sort keys [(-count, word)], and its negation. *)
Lemma pair_ltb_true k1 k2 :
  Py.pair_ltb k1 k2 = true <->
  k1.1 < k2.1 \/ (k1.1 = k2.1 /\ lex_lt k1.2 k2.2).
Proof.
  unfold Py.pair_ltb. rewrite <- str_ltb_lex.
  destruct (k1.1 =? k2.1) eqn:He; simpl.
  - apply Z.eqb_eq in He. intuition lia.
  - apply Z.eqb_neq in He. rewrite Z.ltb_lt. intuition lia.
Qed.

Lemma pair_ltb_false k1 k2 :
  Py.pair_ltb k1 k2 = false <->
  k2.1 < k1.1 \/ (k1.1 = k2.1 /\ (k1.2 = k2.2 \/ lex_lt k2.2 k1.2)).
Proof.
  rewrite <- not_true_iff_false, pair_ltb_true.
  pose proof (lex_lt_trichotomy k1.2 k2.2) as Htri.
  pose proof (lex_lt_irrefl k1.2) as Hirr.
  pose proof (lex_lt_trans k1.2 k2.2 k1.2) as Htr.
  split.
  - intros Hn. destruct (Z.lt_trichotomy k1.1 k2.1) as [H|[H|H]];
      [tauto| |by left]. right. split; [done|]. tauto.
  - intros [H|[H [H'|H']]] [G|[G G']]; try lia.
    + rewrite H' in G'. by apply lex_lt_irrefl in G'.
    + tauto.
Qed.

Section InsertionSort.
Context {A B : Type} (ltb : B -> B -> bool) (key : A -> B).

Hypothesis ltb_asym : forall a b, ltb a b = true -> ltb b a = false.
Hypothesis not_after_trans : forall x y z,
  not_after ltb key x y -> not_after ltb key y z -> not_after ltb key x z.

Lemma insert_perm x l : Py.insert ltb key x l ≡ₚ x :: l.
Proof.
  induction l as [|y l IH]; simpl; [done|].
  destruct (ltb (key y) (key x)); [|done].
  rewrite IH. apply Permutation_swap.
Qed.

Lemma sorted_perm l : Py.sorted ltb key l ≡ₚ l.
Proof.
  induction l as [|x l IH]; simpl; [done|].
  rewrite insert_perm. by constructor.
Qed.

Lemma insert_sorted x l :
  StronglySorted (not_after ltb key) l -> StronglySorted (not_after ltb key) (Py.insert ltb key x l).
Proof.
  induction 1 as [|y l Hl IH Hy]; simpl.
  - repeat constructor.
  - destruct (ltb (key y) (key x)) eqn:Hyx.
    + constructor; [done|].
      rewrite insert_perm. constructor; [|done].
      unfold not_after. by apply ltb_asym.
    + constructor; [by constructor|].
      constructor; [done|].
      eapply Forall_impl; [exact Hy|]. intros z Hz.
      by apply (not_after_trans x y z).
Qed.

Lemma sorted_sorted l : StronglySorted (not_after ltb key) (Py.sorted ltb key l).
Proof.
  induction l as [|x l IH]; simpl; [constructor|]. by apply insert_sorted.
Qed.
End InsertionSort.

Lemma pair_ltb_asym k1 k2 : Py.pair_ltb k1 k2 = true -> Py.pair_ltb k2 k1 = false.
Proof.
  rewrite pair_ltb_true, pair_ltb_false. intros [H|[H H']]; [by left|].
  right. split; [done|]. by right.
Qed.

Lemma pair_not_after_trans {A} (key : A -> Z * Py.str) x y z :
  not_after Py.pair_ltb key x y -> not_after Py.pair_ltb key y z ->
  not_after Py.pair_ltb key x z.
Proof.
  unfold not_after. rewrite !pair_ltb_false.
  intros [H1|[H1 H1']] [H2|[H2 H2']]; try (left; lia).
  right. split; [lia|].
  destruct H1' as [H1'|H1'], H2' as [H2'|H2']; try (left; congruence).
  - right. by rewrite <- H1'.
  - right. by rewrite H2'.
  - right. by apply (lex_lt_trans _ (key y).2).
Qed.

End OrderFacts.

(* ===================================================================== *)
(** * The quality score *)
(* ===================================================================== *)

Module MetricsFacts.
Import FloatFacts.

Lemma ratio_or_zero_run a b p :
  0 <= a <= b ->
  ratio_or_zero a b p =
  (inr (if b =? 0 then Py.Int 0
        else Py.Float (Py.fdiv (Py.exact_int a) (Py.exact_int b))), p).
Proof.
  intros Hab. unfold ratio_or_zero, Py.truthy.
  destruct (b =? 0) eqn:Hb; [done|]. cbn [negb]. unfold bind.
  by rewrite int_truediv_le by lia.
Qed.

Lemma precision_of_nonneg c u : 0 <= c -> 0 <= u -> nonneg (precision_of c u).
Proof.
  intros Hc Hu. unfold precision_of.
  destruct (u =? 0) eqn:H; [exact I|]. apply ratio_nonneg; lia.
Qed.

Lemma float_of_int_0 : Py.float_of_int 0 = inr Py.fzero.
Proof. reflexivity. Qed.

Lemma float_of_int_2 : Py.float_of_int 2 = inr two.
Proof. reflexivity. Qed.

(** The score as [train] computes it, from the three counts. *)
Lemma harmonic_run c u t p :
  0 <= c -> 0 <= u -> 0 <= t ->
  let precision :=
    if u =? 0 then Py.Int 0
    else Py.Float (Py.fdiv (Py.exact_int c) (Py.exact_int u)) in
  let recall :=
    if t =? 0 then Py.Int 0
    else Py.Float (Py.fdiv (Py.exact_int c) (Py.exact_int t)) in
  harmonic precision recall p =
  (inr (harmonic_mean (precision_of c u) (recall_of c t)), p).
Proof.
  intros Hc Hu Ht. cbv zeta.
  pose proof (precision_of_nonneg c u Hc Hu) as Hp.
  pose proof (precision_of_nonneg c t Hc Ht) as Hr.
  unfold harmonic, harmonic_mean, recall_of, precision_of, bind in *.
  destruct (u =? 0), (t =? 0);
    cbn [Py.add Py.mul Py.to_float Py.and_then call ret];
    rewrite ?float_of_int_0; cbn [Py.and_then call ret Py.truthy];
    try reflexivity;
    rewrite ?fadd_is_zero by done;
    match goal with
    | |- context [negb ?b] =>
        destruct b eqn:Hz; cbn [negb]; [reflexivity|]
    end;
    rewrite ?float_of_int_2; cbn [Py.and_then call ret];
    unfold Py.truediv; cbn [Py.to_float Py.and_then];
    rewrite fadd_is_zero, Hz by done; reflexivity.
Qed.

Lemma sum_gt1_nonneg l : 0 <= Py.sum_gt1 l.
Proof.
  unfold Py.sum_gt1. induction l as [|c l IH]; [done|].
  rewrite fmap_cons, DictFacts.isum_cons. destruct (1 <? c); lia.
Qed.

Lemma sum_gt1_le_len l : Py.sum_gt1 l <= Py.len l.
Proof.
  unfold Py.sum_gt1, Py.len. induction l as [|c l IH]; [done|].
  rewrite fmap_cons, DictFacts.isum_cons, length_cons. destruct (1 <? c); lia.
Qed.

Lemma sum_gt1_le_isum l : Forall (fun c => 0 <= c) l -> Py.sum_gt1 l <= Py.isum l.
Proof.
  unfold Py.sum_gt1. induction 1 as [|c l Hc Hl IH]; [done|].
  rewrite fmap_cons, !DictFacts.isum_cons.
  destruct (1 <? c) eqn:H; [apply Z.ltb_lt in H|]; lia.
Qed.

(** [train] after the loop does not raise on a table of counts; the
    object it leaves. *)
Lemma train_metrics_run tc s e p :
  Forall (fun c => 0 <= c) (Py.values tc) ->
  train_metrics tc s e p =
  (inr tt,
   {| model := model p;
      trained := true;
      training_time := Py.Float (Py.fsub e s);
      vocab_size := vocab_size p;
      unique_transitions := Py.len tc;
      total_transitions := Py.isum (Py.values tc);
      f1_score := harmonic_mean
                    (precision_of (Py.sum_gt1 (Py.values tc)) (Py.len tc))
                    (recall_of (Py.sum_gt1 (Py.values tc)) (Py.isum (Py.values tc)));
      file_size := file_size p;
      file_name := file_name p |}).
Proof.
  intros Hpos. unfold train_metrics, bind, modify, gets.
  cbn [unique_transitions total_transitions with_unique_transitions
       with_total_transitions].
  pose proof (sum_gt1_nonneg (Py.values tc)) as H0.
  pose proof (sum_gt1_le_isum _ Hpos) as H1.
  pose proof (sum_gt1_le_len (Py.values tc)) as H2.
  assert (Hlen : Py.len (Py.values tc) = Py.len tc).
  { unfold Py.len, Py.values. by rewrite length_fmap. }
  rewrite ratio_or_zero_run by lia.
  cbn [total_transitions with_total_transitions].
  rewrite ratio_or_zero_run by lia.
  rewrite harmonic_run; [reflexivity|lia..].
Qed.

End MetricsFacts.

(* ===================================================================== *)
(** * Training *)
(* ===================================================================== *)

Module TrainFacts.
Import DictFacts ScanFacts MetricsFacts.

Lemma isum_values_counts `{EqDecision A} (l : list A) :
  Py.isum (Py.values (count_all l [])) = Py.len l.
Proof. rewrite isum_values_count_all. reflexivity. Qed.

Lemma values_counts_nonneg `{EqDecision A} (l : list A) :
  Forall (fun c => 0 <= c) (Py.values (count_all l [])).
Proof.
  rewrite values_count_all. apply Forall_fmap, Forall_forall.
  intros x _. apply occ_nonneg.
Qed.

Lemma len_counts `{EqDecision A} (l : list A) :
  Py.len (count_all l []) = Py.len (remove_dups l).
Proof.
  unfold Py.len. f_equal.
  rewrite <- (keys_count_all_perm l). unfold Py.keys. by rewrite length_fmap.
Qed.

Lemma sum_gt1_fmap {A} (f : A -> Z) (l : list A) :
  Py.sum_gt1 (f <$> l) = Py.len (filter (fun x => 1 < f x) l).
Proof.
  unfold Py.sum_gt1, Py.len. induction l as [|x l IH]; [done|].
  rewrite !fmap_cons, isum_cons, IH, filter_cons.
  destruct (1 <? f x) eqn:Hx.
  - apply Z.ltb_lt in Hx. rewrite decide_True by done. rewrite length_cons. lia.
  - apply Z.ltb_ge in Hx. rewrite decide_False by lia. lia.
Qed.

(** The entries above one in the table are the repeated pairs. *)
Lemma sum_gt1_counts pairs :
  Py.sum_gt1 (Py.values (count_all pairs [])) = repeated pairs.
Proof.
  rewrite values_count_all, sum_gt1_fmap. unfold repeated, Py.len.
  by rewrite (keys_count_all_perm pairs).
Qed.

(** [train] for [n >= 1]: it does not raise, and the object it leaves
    is determined by the corpus, [n], the clock and the file attributes
    of the object it was called on. *)
Lemma train_run corpus n s e p :
  1 <= n ->
  let pairs := windows (Py.split corpus) n in
  train corpus n s e p =
  (inr tt,
   {| model := record_all pairs [];
      trained := true;
      training_time := Py.Float (Py.fsub e s);
      vocab_size := Py.len_set (Py.split corpus);
      unique_transitions := Py.len (remove_dups pairs);
      total_transitions := Py.len pairs;
      f1_score := harmonic_mean
                    (precision_of (repeated pairs) (Py.len (remove_dups pairs)))
                    (recall_of (repeated pairs) (Py.len pairs));
      file_size := file_size p;
      file_name := file_name p |}).
Proof.
  intros Hn pairs. unfold train, bind.
  rewrite train_scan_run by done. fold pairs.
  rewrite train_metrics_run by apply values_counts_nonneg.
  by rewrite isum_values_counts, len_counts, sum_gt1_counts.
Qed.

End TrainFacts.

(* ===================================================================== *)
(** * Prediction *)
(* ===================================================================== *)

Module PredictFacts.
Import DictFacts ScanFacts OrderFacts TrainFacts.

Lemma slice_last {A} (ws : list A) (w : A) :
  Py.slice (ws ++ [w]) (Some (-1)) None = [w].
Proof.
  unfold Py.slice, Py.clip, Py.len. rewrite length_app. cbn [length].
  change (-1 <? 0) with true. cbv iota.
  replace (Z.to_nat (Z.max (-1 + Z.of_nat (length ws + 1)) 0)) with (length ws) by lia.
  rewrite drop_app_length. apply take_ge. simpl. lia.
Qed.

Lemma slice_prefix {A} (l : list A) (k : Z) :
  0 <= k -> Py.slice l None (Some k) = take (Z.to_nat k) l.
Proof.
  intros Hk. unfold Py.slice, Py.clip.
  destruct (k <? 0) eqn:H; [lia|]. rewrite drop_0, Z.sub_0_r.
  destruct (Z.le_ge_cases k (Py.len l)) as [Hle|Hge].
  - by rewrite Z.min_l.
  - rewrite Z.min_r by done. unfold Py.len in *.
    rewrite !take_ge; [done|lia..].
Qed.

(** What [predict_next] returns once the key has followers. *)
Lemma predict_next_run text top_k ws w followers p :
  trained p = true ->
  Py.split (Py.strip text) = ws ++ [w] ->
  Py.get [w] (model p) = Some followers ->
  followers <> [] ->
  0 <= top_k ->
  outcome (predict_next text top_k) p =
  inr (take (Z.to_nat top_k)
         (fst <$> Py.sorted Py.pair_ltb rank_key (Py.items (tally followers)))).
Proof.
  intros Htr Hws Hget Hne Hk.
  unfold outcome, predict_next, bind, gets. rewrite Htr, Hws. cbn [negb].
  replace (is_empty (ws ++ [w])) with false by (by destruct ws).
  rewrite slice_last. unfold Py.get_or. rewrite Hget. cbn [default from_option id].
  replace (is_empty followers) with false by (by destruct followers).
  cbn [ret fst]. by rewrite slice_prefix, fmap_take.
Qed.

(** The items of [freq]: the distinct followers, each with its number of
    occurrences. *)
Lemma tally_items followers :
  Py.items (tally followers) =
  (fun x => (x, occ x followers)) <$> Py.keys (tally followers).
Proof. apply (count_all_items followers). Qed.

(** Sorted by key, items that carry their count and differ in their word
    are in rank order. *)
Lemma ranked_words followers (l : list (Py.str * Z)) :
  StronglySorted (not_after Py.pair_ltb rank_key) l ->
  Forall (fun x => x.2 = occ x.1 followers) l ->
  NoDup (fst <$> l) ->
  StronglySorted (ranks_before followers) (fst <$> l).
Proof.
  induction 1 as [|x l Hl IH Hx]; intros Hocc Hnd; [constructor|].
  rewrite fmap_cons in *.
  apply Forall_cons in Hocc as [Hxo Hocc]. apply NoDup_cons in Hnd as [Hxl Hnd].
  constructor; [by apply IH|].
  apply Forall_fmap, Forall_forall. intros y Hy. cbn [compose].
  rewrite Forall_forall in Hx, Hocc.
  specialize (Hx y Hy). specialize (Hocc y Hy).
  unfold not_after, rank_key in Hx. apply pair_ltb_false in Hx. cbn [fst snd] in Hx.
  unfold ranks_before. rewrite <- Hxo, <- Hocc.
  destruct Hx as [Hx|[Heq [Hx|Hx]]]; [left; lia| |right; split; [lia|done]].
  exfalso. apply Hxl. rewrite <- Hx. by apply list_elem_of_fmap_2.
Qed.

(** The keys of the index after a scan: those it had, and the contexts
    of the pairs seen. *)
Lemma keys_record_all pairs d k :
  k ∈ Py.keys (record_all pairs d) -> k ∈ Py.keys d \/ k ∈ pairs.*1.
Proof.
  revert d; induction pairs as [|[k0 w] pairs IH]; intros d Hk; [by left|].
  apply IH in Hk as [Hk|Hk].
  - rewrite keys_update_default in Hk. cbn [fst snd] in *.
    destruct (Py.get k0 d); [by left|].
    apply elem_of_app in Hk as [Hk|Hk%list_elem_of_singleton]; [by left|].
    right. subst. rewrite fmap_cons. apply list_elem_of_here.
  - right. rewrite fmap_cons. by apply list_elem_of_further.
Qed.

(** Every context of a window has [n - 1] tokens. *)
Lemma length_window_context tokens n k :
  1 <= n -> k ∈ (windows tokens n).*1 -> Py.len k = n - 1.
Proof.
  intros Hn Hk. unfold windows in Hk. rewrite <- list_fmap_compose in Hk.
  apply list_elem_of_fmap in Hk as (i & -> & Hi%elem_of_seq).
  unfold Py.len in *. cbn [compose window_at fst].
  rewrite length_take, length_drop. lia.
Qed.

(** After [train] with [n >= 3] no key of one token is in the index. *)
Lemma no_one_token_key corpus n s e p w :
  3 <= n -> Py.get [w] (model (after (train corpus n s e) p)) = None.
Proof.
  intros Hn. unfold after. rewrite train_run by lia. cbn [snd model].
  apply get_None_keys. intros [Hk|Hk]%keys_record_all.
  - by apply elem_of_nil in Hk.
  - apply length_window_context in Hk; [|lia]. unfold Py.len in Hk.
    simpl in Hk. lia.
Qed.

End PredictFacts.

(* ===================================================================== *)
(** * Properties of the predictor *)
(* ===================================================================== *)

Import FloatFacts DictFacts ScanFacts OrderFacts MetricsFacts TrainFacts PredictFacts.

(** C1, the code at a failing input. After [train] on
    "to be or not to be or to be fair" with [n = 3] the model is trained
    and the index holds the context [("to", "be")] with the followers
    [or, or, fair]; their ranking by descending count is [or, fair].
    For the prefix "to be", whose tokens are that context,
    [predict_next] does not return this ranking for any [top_k]: it
    looks up the one-token key [("be",)], which the index does not
    hold, and answers that no prediction is available. *)
Theorem predict_next_longer_context :
  let p' := after (train tobe_corpus 3 Py.fzero Py.fzero) init in
  outcome (train tobe_corpus 3 Py.fzero Py.fzero) init = inr tt
  /\ trained p' = true
  /\ Py.get [to_; be] (model p') = Some [or_; or_; fair]
  /\ Py.split (Py.strip (Py.lit "to be")) = [to_; be]
  /\ ranking [or_; or_; fair] = [or_; fair]
  /\ Py.get [be] (model p') = None
  /\ (forall top_k,
        outcome (predict_next (Py.lit "to be") top_k) p'
        = inr [msg_no_predictions])
  /\ (forall top_k,
        1 <= top_k ->
        outcome (predict_next (Py.lit "to be") top_k) p'
        <> inr (take (Z.to_nat top_k) (ranking [or_; or_; fair]))).
Proof.
  assert (Hout : forall top_k,
            outcome (predict_next (Py.lit "to be") top_k)
                    (after (train tobe_corpus 3 Py.fzero Py.fzero) init)
            = inr [msg_no_predictions]).
  { intros top_k. vm_compute. reflexivity. }
  cbv zeta. split_and!; try (vm_compute; reflexivity).
  intros top_k Hk. rewrite Hout.
  assert (Hr : ranking [or_; or_; fair] = [or_; fair]) by (vm_compute; reflexivity).
  rewrite Hr. destruct (Z.to_nat top_k) as [|[|k]] eqn:Hn; [lia|..];
    intros H; vm_compute in H; discriminate H.
Qed.

(** Where the key [predict_next] looks up is a context of the index,
    the ranking is as it should be: for every trained model, every prefix whose last token alone is a context of the index
    with a non-empty follower sequence, and every [top_k >= 1],
    [predict_next] returns the first [top_k] of the distinct followers
    of that context (all of them when there are fewer) in the order of
    descending number of occurrences, ties in ascending lexicographic
    order of the word. *)
Theorem predict_next_ranking text top_k ws w followers p :
  trained p = true ->
  Py.split (Py.strip text) = ws ++ [w] ->
  Py.get [w] (model p) = Some followers ->
  followers <> [] ->
  1 <= top_k ->
  exists ranked,
    outcome (predict_next text top_k) p = inr (take (Z.to_nat top_k) ranked)
    /\ NoDup ranked
    /\ (forall x, x ∈ ranked <-> x ∈ followers)
    /\ StronglySorted (ranks_before followers) ranked.
Proof.
  intros Htr Hws Hget Hne Hk.
  set (items := Py.items (tally followers)).
  set (sorted_words := Py.sorted Py.pair_ltb rank_key items).
  assert (Hperm : fst <$> sorted_words ≡ₚ Py.keys (tally followers)).
  { unfold sorted_words. by rewrite sorted_perm. }
  assert (Hnd : NoDup (Py.keys (tally followers))).
  { apply (NoDup_keys_count_all followers), NoDup_nil_2. }
  exists (fst <$> sorted_words). split_and!.
  - rewrite (predict_next_run text top_k ws w followers) by (done || lia). done.
  - by rewrite Hperm.
  - intros x. rewrite Hperm.
    change (tally followers) with (count_all followers []).
    rewrite (elem_of_keys_count_all x followers []).
    unfold Py.keys. simpl. rewrite elem_of_nil. tauto.
  - apply ranked_words.
    + apply sorted_sorted; [apply pair_ltb_asym|apply pair_not_after_trans].
    + apply Forall_forall. intros x Hx.
      assert (Hin : x ∈ items) by (by rewrite <- (sorted_perm Py.pair_ltb rank_key)).
      unfold items in Hin. rewrite tally_items in Hin.
      apply list_elem_of_fmap in Hin as (y & -> & _). done.
    + by rewrite Hperm.
Qed.

(** C2, counterexample. On a fresh object the scenario does not end with
    six unique transitions. *)
Lemma cat_scenario_not_six :
  ~ cat_scenario_as_specified Py.fzero Py.fzero init.
Proof.
  unfold cat_scenario_as_specified.
  intros (_ & _ & _ & _ & _ & H). vm_compute in H. discriminate H.
Qed.

(** C2, amended. After [train] on "the cat sat on the mat the cat ran"
    with [n = 2]: the context [("the",)] has the followers
    [cat, mat, cat], counted as [cat: 2, mat: 1], in [freq] and in the
    transition count table alike; [predict_next("the", 2)] returns
    [cat, mat]; [vocab_size] is 6, [total_transitions] is 8 and
    [unique_transitions] is 7. *)
Theorem cat_scenario s e p :
  let p' := after (train cat_corpus 2 s e) p in
  Py.get [the] (model p') = Some [cat; mat; cat]
  /\ tally [cat; mat; cat] = [(cat, 2); (mat, 1)]
  /\ (exists transition_counts,
        outcome (train_scan cat_corpus 2) p = inr transition_counts
        /\ Py.get ([the], cat) transition_counts = Some 2
        /\ Py.get ([the], mat) transition_counts = Some 1)
  /\ outcome (predict_next the 2) p' = inr [cat; mat]
  /\ vocab_size p' = 6
  /\ total_transitions p' = 8
  /\ unique_transitions p' = 7.
Proof.
  cbv zeta. unfold outcome, after.
  rewrite train_scan_run, train_run by lia.
  split_and!; try (vm_compute; reflexivity).
  eexists. split_and!; [reflexivity|vm_compute; reflexivity..].
Qed.

(** C3, the code at a failing input. After [train] on "a b c a b d" with
    [n = 3] the index holds the context [("a", "b")] with the followers
    [c, d]; for the prefix "a b", whose last two tokens are that
    context, [predict_next] looks up the one-token key [("b",)] and
    answers that no prediction is available. *)
Theorem predict_next_one_token_key :
  let p' := after (train abc_corpus 3 Py.fzero Py.fzero) init in
  outcome (train abc_corpus 3 Py.fzero Py.fzero) init = inr tt
  /\ Py.get [Py.lit "a"; Py.lit "b"] (model p') = Some [Py.lit "c"; Py.lit "d"]
  /\ Py.slice (Py.split (Py.strip (Py.lit "a b"))) (Some (-1)) None = [Py.lit "b"]
  /\ outcome (predict_next (Py.lit "a b") 3) p' = inr [msg_no_predictions].
Proof. vm_compute. done. Qed.

(** More generally: a model trained with [n >= 3] has no prediction for
    any prefix that has a token, whatever the corpus. *)
Lemma predict_next_without_candidates corpus n s e p text top_k :
  3 <= n ->
  Py.split (Py.strip text) <> [] ->
  outcome (predict_next text top_k) (after (train corpus n s e) p)
  = inr [msg_no_predictions].
Proof.
  intros Hn Hne.
  destruct (exists_last Hne) as (ws & w & Hws).
  pose proof (no_one_token_key corpus n s e p w Hn) as Hget.
  assert (Htr : trained (after (train corpus n s e) p) = true).
  { unfold after. by rewrite train_run by lia. }
  unfold outcome, predict_next, bind, gets. rewrite Htr, Hws. cbn [negb].
  replace (is_empty (ws ++ [w])) with false by (by destruct ws).
  rewrite slice_last. unfold Py.get_or. by rewrite Hget.
Qed.

(** C4. For every corpus and every [n >= 2], [train] succeeds, the
    entries of the transition count table it builds add up to
    [total_transitions], and both are [max(0, token_count - n + 1)]
    where [token_count] is the number of tokens of the corpus. *)
Theorem total_transitions_counts_windows corpus n s e p :
  2 <= n ->
  exists transition_counts,
    outcome (train_scan corpus n) p = inr transition_counts
    /\ outcome (train corpus n s e) p = inr tt
    /\ Py.isum (Py.values transition_counts)
       = total_transitions (after (train corpus n s e) p)
    /\ total_transitions (after (train corpus n s e) p)
       = Z.max 0 (Py.len (Py.split corpus) - n + 1).
Proof.
  intros Hn. eexists. unfold outcome, after.
  rewrite train_scan_run, train_run by lia. cbn [fst snd total_transitions].
  split_and!; [reflexivity..| |].
  - apply isum_values_counts.
  - apply length_windows.
Qed.

(** C5. For every corpus and [n >= 2], [train] returns, stores the
    number of distinct (context, follower) windows of the corpus as
    [unique_transitions] and the number of windows as
    [total_transitions], and the score it stores is the harmonic mean
    [2 * (precision * recall) / (precision + recall)], computed in
    binary64, where [correct] is the number of distinct windows of the
    corpus seen more than once, precision is
    [correct / unique_transitions] and recall is
    [correct / total_transitions] (each zero when its divisor is), and
    the score is zero when both are zero. *)
Theorem f1_score_harmonic_mean corpus n s e p :
  2 <= n ->
  let p' := after (train corpus n s e) p in
  let pairs := windows (Py.split corpus) n in
  let correct := repeated pairs in
  let precision := precision_of correct (Py.len (remove_dups pairs)) in
  let recall := recall_of correct (Py.len pairs) in
  outcome (train corpus n s e) p = inr tt
  /\ unique_transitions p' = Py.len (remove_dups pairs)
  /\ total_transitions p' = Py.len pairs
  /\ f1_score p' =
     harmonic_mean (precision_of correct (unique_transitions p'))
                   (recall_of correct (total_transitions p'))
  /\ f1_score p' = harmonic_mean precision recall
  /\ (Py.is_zero precision = true -> Py.is_zero recall = true ->
      f1_score p' = Py.Int 0)
  /\ (Py.is_zero precision && Py.is_zero recall = false ->
      f1_score p' =
      Py.Float (Py.fdiv (Py.fmul two (Py.fmul precision recall))
                        (Py.fadd precision recall))).
Proof.
  intros Hn. cbv zeta. unfold outcome, after. rewrite train_run by lia.
  cbn [fst snd unique_transitions total_transitions f1_score].
  split_and!; [done..| |].
  - intros Hp Hr. unfold harmonic_mean. by rewrite Hp, Hr.
  - intros Hz. unfold harmonic_mean. by rewrite Hz.
Qed.

(** C6, counterexample. After [train] on the empty corpus the empty
    prefix gets the empty list, not the answer that no prediction is
    available. *)
Lemma empty_corpus_empty_prefix :
  ~ empty_corpus_as_specified 2 Py.fzero Py.fzero init.
Proof.
  intros (_ & _ & _ & _ & H). specialize (H [] 3). vm_compute in H.
  discriminate H.
Qed.

(** C6, amended. [train] on the empty corpus succeeds and leaves the
    model trained with [vocab_size = 0] and an empty index; after it,
    for every [top_k], [predict_next] answers that no prediction is
    available for every prefix that has a token, and returns the empty
    list for a prefix that has none. *)
Theorem empty_corpus_training n s e p :
  2 <= n ->
  let p' := after (train [] n s e) p in
  outcome (train [] n s e) p = inr tt
  /\ trained p' = true
  /\ vocab_size p' = 0
  /\ model p' = []
  /\ forall text top_k,
       outcome (predict_next text top_k) p' =
       inr (if is_empty (Py.split (Py.strip text)) then []
            else [msg_no_predictions]).
Proof.
  intros Hn. cbv zeta. unfold outcome, after. rewrite train_run by lia.
  change (Py.split []) with (@nil Py.str).
  rewrite windows_short by (unfold Py.len; simpl; lia).
  split_and!; try done.
  intros text top_k. unfold predict_next, bind, gets. cbn [trained negb fst snd].
  by destruct (Py.split (Py.strip text)).
Qed.

(** C7, counterexample. What [get_stats] returns on a fresh object is
    what it returns after [train] on the empty corpus. *)
Lemma get_stats_fresh_as_trained : ~ get_stats_signals_not_trained.
Proof.
  intros H. apply (H init); [reflexivity|].
  exists [], 2, clock_start, clock_end, init.
  split_and!; [lia|vm_compute; reflexivity..].
Qed.

(** C8. For every corpus with fewer than [n] tokens ([n >= 2]), [train]
    succeeds and both the index and the transition count table are
    empty. *)
Theorem short_corpus_empty_index corpus n s e p :
  2 <= n ->
  Py.len (Py.split corpus) < n ->
  outcome (train corpus n s e) p = inr tt
  /\ model (after (train corpus n s e) p) = []
  /\ outcome (train_scan corpus n) p = inr [].
Proof.
  intros Hn Hshort. unfold outcome, after.
  rewrite train_scan_run, train_run by lia.
  by rewrite windows_short.
Qed.

(** C9. For every corpus and [n >= 2], a second [train] with the same
    corpus and [n] right after the first leaves the same index, builds
    the same transition counts and stores the same statistics; only the
    training time may differ. *)
Theorem train_idempotent corpus n s1 e1 s2 e2 p :
  2 <= n ->
  let p1 := after (train corpus n s1 e1) p in
  let p2 := after (train corpus n s2 e2) p1 in
  outcome (train corpus n s1 e1) p = inr tt
  /\ outcome (train corpus n s2 e2) p1 = inr tt
  /\ model p2 = model p1
  /\ outcome (train_scan corpus n) p1 = outcome (train_scan corpus n) p
  /\ vocab_size p2 = vocab_size p1
  /\ unique_transitions p2 = unique_transitions p1
  /\ total_transitions p2 = total_transitions p1
  /\ f1_score p2 = f1_score p1
  /\ with_training_time (training_time p1) p2 = p1.
Proof.
  intros Hn. unfold outcome, after.
  rewrite !train_scan_run, !train_run by lia. done.
Qed.

(** C10. For every state of the object, trained or not, and every prefix
    and [top_k], [predict_next] leaves the object as it found it; a
    context that is not in the index is looked up, not inserted. *)
Theorem predict_next_frame text top_k p :
  after (predict_next text top_k) p = p.
Proof.
  unfold after, predict_next, bind, gets.
  destruct (trained p); cbn [negb]; [|done].
  destruct (is_empty (Py.split (Py.strip text))); [done|].
  destruct (is_empty _); done.
Qed.

(* --------------------------------------------------------------------- *)
(** ** The theorems at a concrete input *)
(* --------------------------------------------------------------------- *)

(** The ranking on the model trained on the cat corpus, for the prefix
    "the" and
    [top_k = 2]. *)
Lemma predict_next_ranking_witness :
  (trained cat_model = true
   /\ Py.split (Py.strip the) = [] ++ [the]
   /\ Py.get [the] (model cat_model) = Some [cat; mat; cat]
   /\ [cat; mat; cat] <> []
   /\ 1 <= 2)
  /\ exists ranked,
       outcome (predict_next the 2) cat_model = inr (take (Z.to_nat 2) ranked)
       /\ NoDup ranked
       /\ (forall x, x ∈ ranked <-> x ∈ [cat; mat; cat])
       /\ StronglySorted (ranks_before [cat; mat; cat]) ranked.
Proof.
  assert (H1 : trained cat_model = true) by (vm_compute; reflexivity).
  assert (H2 : Py.split (Py.strip the) = [] ++ [the]) by (vm_compute; reflexivity).
  assert (H3 : Py.get [the] (model cat_model) = Some [cat; mat; cat])
    by (vm_compute; reflexivity).
  assert (H4 : [cat; mat; cat] <> []) by discriminate.
  assert (H5 : 1 <= 2) by lia.
  split; [exact (conj H1 (conj H2 (conj H3 (conj H4 H5))))|].
  exact (predict_next_ranking the 2 [] the [cat; mat; cat] cat_model H1 H2 H3 H4 H5).
Defined.

(** C4 on the cat corpus with [n = 2]. *)
Lemma total_transitions_counts_windows_witness :
  2 <= 2
  /\ exists transition_counts,
       outcome (train_scan cat_corpus 2) init = inr transition_counts
       /\ outcome (train cat_corpus 2 Py.fzero Py.fzero) init = inr tt
       /\ Py.isum (Py.values transition_counts)
          = total_transitions (after (train cat_corpus 2 Py.fzero Py.fzero) init)
       /\ total_transitions (after (train cat_corpus 2 Py.fzero Py.fzero) init)
          = Z.max 0 (Py.len (Py.split cat_corpus) - 2 + 1).
Proof.
  assert (H : 2 <= 2) by lia. split; [exact H|].
  exact (total_transitions_counts_windows cat_corpus 2 Py.fzero Py.fzero init H).
Defined.

(** C5 on the cat corpus with [n = 2]: seven distinct windows out of
    eight, one of them seen twice, and the score 2/15 as binary64
    gives it. *)
Lemma f1_score_harmonic_mean_witness :
  2 <= 2
  /\ (let p' := after (train cat_corpus 2 Py.fzero Py.fzero) init in
      let pairs := windows (Py.split cat_corpus) 2 in
      let correct := repeated pairs in
      let precision := precision_of correct (Py.len (remove_dups pairs)) in
      let recall := recall_of correct (Py.len pairs) in
      outcome (train cat_corpus 2 Py.fzero Py.fzero) init = inr tt
      /\ unique_transitions p' = Py.len (remove_dups pairs)
      /\ total_transitions p' = Py.len pairs
      /\ f1_score p' =
         harmonic_mean (precision_of correct (unique_transitions p'))
                       (recall_of correct (total_transitions p'))
      /\ f1_score p' = harmonic_mean precision recall
      /\ (Py.is_zero precision = true -> Py.is_zero recall = true ->
          f1_score p' = Py.Int 0)
      /\ (Py.is_zero precision && Py.is_zero recall = false ->
          f1_score p' =
          Py.Float (Py.fdiv (Py.fmul two (Py.fmul precision recall))
                            (Py.fadd precision recall))))
  /\ repeated (windows (Py.split cat_corpus) 2) = 1
  /\ unique_transitions cat_model = 7
  /\ total_transitions cat_model = 8
  /\ f1_score cat_model = Py.Float (S754_finite false 4803839602528529 (-55)).
Proof.
  assert (H : 2 <= 2) by lia.
  assert (H1 : repeated (windows (Py.split cat_corpus) 2) = 1)
    by (vm_compute; reflexivity).
  assert (H2 : unique_transitions cat_model = 7) by (vm_compute; reflexivity).
  assert (H3 : total_transitions cat_model = 8) by (vm_compute; reflexivity).
  assert (H4 : f1_score cat_model
               = Py.Float (S754_finite false 4803839602528529 (-55)))
    by (vm_compute; reflexivity).
  exact (conj H
          (conj (f1_score_harmonic_mean cat_corpus 2 Py.fzero Py.fzero init H)
                (conj H1 (conj H2 (conj H3 H4))))).
Defined.

(** C8 on the one-token corpus "the" with [n = 2]. *)
Lemma short_corpus_empty_index_witness :
  (2 <= 2 /\ Py.len (Py.split the) < 2)
  /\ outcome (train the 2 Py.fzero Py.fzero) init = inr tt
  /\ model (after (train the 2 Py.fzero Py.fzero) init) = []
  /\ outcome (train_scan the 2) init = inr [].
Proof.
  assert (H1 : 2 <= 2) by lia.
  assert (H2 : Py.len (Py.split the) < 2) by (vm_compute; reflexivity).
  split; [exact (conj H1 H2)|].
  exact (short_corpus_empty_index the 2 Py.fzero Py.fzero init H1 H2).
Defined.

(** C9 on the cat corpus with [n = 2], trained twice. *)
Lemma train_idempotent_witness :
  2 <= 2
  /\ let p1 := after (train cat_corpus 2 clock_start clock_end) init in
     let p2 := after (train cat_corpus 2 clock_end clock_end) p1 in
     outcome (train cat_corpus 2 clock_start clock_end) init = inr tt
     /\ outcome (train cat_corpus 2 clock_end clock_end) p1 = inr tt
     /\ model p2 = model p1
     /\ outcome (train_scan cat_corpus 2) p1 = outcome (train_scan cat_corpus 2) init
     /\ vocab_size p2 = vocab_size p1
     /\ unique_transitions p2 = unique_transitions p1
     /\ total_transitions p2 = total_transitions p1
     /\ f1_score p2 = f1_score p1
     /\ with_training_time (training_time p1) p2 = p1.
Proof.
  assert (H : 2 <= 2) by lia. split; [exact H|].
  exact (train_idempotent cat_corpus 2 clock_start clock_end clock_end clock_end
           init H).
Defined.

(** C6 with [n = 2] on a fresh object. *)
Lemma empty_corpus_training_witness :
  2 <= 2
  /\ let p' := after (train [] 2 Py.fzero Py.fzero) init in
     outcome (train [] 2 Py.fzero Py.fzero) init = inr tt
     /\ trained p' = true
     /\ vocab_size p' = 0
     /\ model p' = []
     /\ forall text top_k,
          outcome (predict_next text top_k) p' =
          inr (if is_empty (Py.split (Py.strip text)) then []
               else [msg_no_predictions]).
Proof.
  assert (H : 2 <= 2) by lia. split; [exact H|].
  exact (empty_corpus_training 2 Py.fzero Py.fzero init H).
Defined.

(* ===================================================================== *)
(** * Further properties: the index, the counts, the tokens *)
(* ===================================================================== *)

Module IndexFacts.

Section Generic.
Context {K V : Type} `{EqDecision K}.
Implicit Types (d : Py.dict K V) (k : K) (v : V).

Lemma NoDup_keys_update_default dflt f k d :
  NoDup (Py.keys d) -> NoDup (Py.keys (Py.update_default dflt f k d)).
Proof.
  intros Hnd. rewrite keys_update_default.
  destruct (Py.get k d) eqn:Hk; [done|].
  apply NoDup_app. split_and!; [done| |apply NoDup_singleton].
  intros k' Hk' ->%list_elem_of_singleton. by apply get_None_keys in Hk.
Qed.

(** A sum over the values after an assignment. *)
Lemma isum_fmap_setitem (g : V -> Z) k v d :
  Py.isum (g <$> Py.values (Py.setitem k v d)) =
  Py.isum (g <$> Py.values d) + g v
  - match Py.get k d with Some v0 => g v0 | None => 0 end.
Proof.
  unfold Py.values. induction d as [|[k0 v0] d IH].
  - cbn. lia.
  - cbn [Py.setitem Py.get]. case_decide;
      rewrite !fmap_cons, !isum_cons; cbn [snd]; [lia|].
    rewrite IH. lia.
Qed.

Lemma isum_fmap_update_default (g : V -> Z) dflt f k d :
  Py.isum (g <$> Py.values (Py.update_default dflt f k d)) =
  Py.isum (g <$> Py.values d) + g (f (default dflt (Py.get k d)))
  - match Py.get k d with Some v0 => g v0 | None => 0 end.
Proof.
  unfold Py.update_default, Py.getitem_default.
  destruct (Py.get k d) as [v0|] eqn:Hk; rewrite !isum_fmap_setitem.
  - rewrite Hk. done.
  - rewrite get_setitem, decide_True, Hk by done. simpl. lia.
Qed.
End Generic.

Lemma followers_of_cons k k0 w pairs :
  followers_of k ((k0, w) :: pairs) =
  if decide (k0 = k) then w :: followers_of k pairs else followers_of k pairs.
Proof.
  unfold followers_of. rewrite filter_cons. cbn [fst].
  by case_decide.
Qed.

Lemma elem_of_followers_of k x pairs : x ∈ followers_of k pairs <-> (k, x) ∈ pairs.
Proof.
  unfold followers_of. rewrite list_elem_of_fmap. split.
  - intros ([k0 w] & -> & [Hk Hin]%list_elem_of_filter). cbn in *. by subst.
  - intros Hin. exists (k, x). split; [done|]. by apply list_elem_of_filter.
Qed.

Lemma occ_followers_of k x pairs : occ x (followers_of k pairs) = occ (k, x) pairs.
Proof.
  induction pairs as [|[k0 w] pairs IH]; [done|].
  rewrite followers_of_cons, (occ_cons (k, x)).
  destruct (decide (k0 = k)) as [->|Hne].
  - rewrite occ_cons, IH. repeat case_decide; congruence.
  - rewrite IH. case_decide; [congruence|lia].
Qed.

Lemma record_all_cons k0 w pairs d :
  record_all ((k0, w) :: pairs) d =
  record_all pairs (Py.update_default [] (fun l => l ++ [w]) k0 d).
Proof. reflexivity. Qed.

(** The entry of a context after a scan: what it held, then its
    followers among the pairs seen; no entry if there is neither. *)
Lemma get_record_all k pairs d :
  Py.get k (record_all pairs d) =
  match Py.get k d with
  | Some l => Some (l ++ followers_of k pairs)
  | None => match followers_of k pairs with [] => None | fs => Some fs end
  end.
Proof.
  revert d; induction pairs as [|[k0 w] pairs IH]; intros d.
  - cbn. destruct (Py.get k d); [by rewrite app_nil_r|done].
  - rewrite record_all_cons, IH, get_update_default, followers_of_cons.
    destruct (decide (k = k0)) as [->|Hne].
    + rewrite decide_True by done.
      destruct (Py.get k0 d); cbn; [by rewrite <- app_assoc|done].
    + rewrite decide_False by done. done.
Qed.

Lemma NoDup_keys_record_all pairs d :
  NoDup (Py.keys d) -> NoDup (Py.keys (record_all pairs d)).
Proof.
  revert d; induction pairs as [|[k0 w] pairs IH]; intros d Hnd; [done|].
  rewrite record_all_cons. by apply IH, NoDup_keys_update_default.
Qed.

Lemma isum_len_record_all pairs d :
  Py.isum (Py.len <$> Py.values (record_all pairs d)) =
  Py.isum (Py.len <$> Py.values d) + Py.len pairs.
Proof.
  revert d; induction pairs as [|[k0 w] pairs IH]; intros d.
  - unfold Py.len at 3. simpl. lia.
  - rewrite record_all_cons, IH, isum_fmap_update_default.
    unfold Py.len. rewrite length_app, length_cons. cbn [length].
    destruct (Py.get k0 d); simpl; lia.
Qed.

Lemma length_remove_dups_le `{EqDecision A} (l : list A) :
  (length (remove_dups l) <= length l)%nat.
Proof.
  apply submseteq_length, NoDup_submseteq.
  - apply NoDup_remove_dups.
  - intros x. by rewrite elem_of_remove_dups.
Qed.

Lemma remove_dups_nil_iff `{EqDecision A} (l : list A) : remove_dups l = [] <-> l = [].
Proof.
  split; [|by intros ->]. intros Hnil. destruct l as [|x l]; [done|].
  assert (Hx : x ∈ remove_dups (x :: l)) by (apply elem_of_remove_dups; left).
  rewrite Hnil in Hx. by apply elem_of_nil in Hx.
Qed.

Lemma isum_Permutation l1 l2 : l1 ≡ₚ l2 -> Py.isum l1 = Py.isum l2.
Proof.
  induction 1 as [|x l1 l2 _ IH|x y l|l1 l2 l3 _ IH1 _ IH2];
    rewrite ?isum_cons; lia.
Qed.

(** The occurrences of the distinct elements of a list add up to its
    length. *)
Lemma isum_occ_remove_dups `{EqDecision A} (l : list A) :
  Py.isum ((fun x => occ x l) <$> remove_dups l) = Py.len l.
Proof.
  rewrite <- (isum_values_counts l), values_count_all.
  apply isum_Permutation, fmap_Permutation. symmetry. apply keys_count_all_perm.
Qed.

(** What a counting loop holds for [x]: its occurrences, zero if none. *)
Lemma get_counts `{EqDecision A} (x : A) (l : list A) :
  default 0 (Py.get x (count_all l [])) = occ x l.
Proof.
  rewrite get_count_all. case_decide as Hin; simpl; [lia|].
  pose proof (occ_pos x l). pose proof (occ_nonneg x l).
  destruct (decide (0 < occ x l)); [tauto|lia].
Qed.

End IndexFacts.

Module TokenFacts.

Lemma split_from_words cur s :
  Forall (fun c => Py.isspace c = false) cur ->
  Forall is_word (Py.split_from cur s).
Proof.
  revert cur; induction s as [|c s IH]; intros cur Hcur; simpl.
  - destruct cur as [|c0 cur]; [constructor|].
    constructor; [|constructor]. split.
    + simpl. by destruct (rev cur).
    + by apply Forall_rev.
  - destruct (Py.isspace c) eqn:Hc.
    + destruct cur as [|c0 cur]; [by apply IH|].
      constructor; [|by apply IH]. split.
      * simpl. by destruct (rev cur).
      * by apply Forall_rev.
    + apply IH. by constructor.
Qed.

(** Every token is a word. *)
Lemma split_words s : Forall is_word (Py.split s).
Proof. apply split_from_words. constructor. Qed.

Lemma lstrip_decompose s :
  exists sp, s = sp ++ Py.lstrip s /\ Forall (fun c => Py.isspace c = true) sp.
Proof.
  induction s as [|c s (sp & Hs & Hsp)]; simpl.
  - by exists [].
  - destruct (Py.isspace c) eqn:Hc.
    + exists (c :: sp). split; [by rewrite <- app_comm_cons, <- Hs|by constructor].
    + by exists [].
Qed.

Lemma split_from_leading sp s :
  Forall (fun c => Py.isspace c = true) sp ->
  Py.split_from [] (sp ++ s) = Py.split_from [] s.
Proof. induction 1 as [|c sp Hc _ IH]; simpl; [done|]. by rewrite Hc. Qed.

Lemma split_from_trailing cur s sp :
  Forall (fun c => Py.isspace c = true) sp ->
  Py.split_from cur (s ++ sp) = Py.split_from cur s.
Proof.
  intros Hsp. revert cur; induction s as [|c s IH]; intros cur; simpl.
  - revert cur. induction Hsp as [|c sp Hc _ IH]; intros cur; simpl; [done|].
    rewrite Hc. destruct cur; [apply (IH [])|]. by rewrite (IH []).
  - destruct (Py.isspace c); [|apply IH].
    destruct cur; by rewrite IH.
Qed.

(** Stripping the text first does not change its tokens. *)
Lemma split_strip s : Py.split (Py.strip s) = Py.split s.
Proof.
  unfold Py.split, Py.strip.
  destruct (lstrip_decompose s) as (sp1 & Hs & Hsp1).
  destruct (lstrip_decompose (rev (Py.lstrip s))) as (sp2 & Hr & Hsp2).
  rewrite Hs at 2. rewrite split_from_leading by done.
  apply (f_equal (@rev _)) in Hr. rewrite rev_involutive, rev_app_distr in Hr.
  rewrite Hr at 2. rewrite split_from_trailing; [done|]. by apply Forall_rev.
Qed.





End TokenFacts.

Module WindowFacts.

(** The pairs of the scan: a context and the token that comes after
    it. *)
Lemma elem_of_windows tokens n k x :
  1 <= n ->
  (k, x) ∈ windows tokens n <->
  exists i : nat,
    Z.of_nat i + n <= Py.len tokens
    /\ k = take (Z.to_nat (n - 1)) (drop i tokens)
    /\ tokens !! (i + Z.to_nat (n - 1))%nat = Some x.
Proof.
  intros Hn. unfold windows, Py.len. rewrite list_elem_of_fmap. split.
  - intros (i & Heq & Hi%elem_of_seq). exists i. unfold window_at in Heq.
    destruct (tokens !! (i + Z.to_nat (n - 1))%nat) as [y|] eqn:Hy.
    + injection Heq as -> ->. unfold Py.str in *. split_and!; [lia|done..].
    + apply lookup_ge_None in Hy. unfold Py.str in *. lia.
  - intros (i & Hi & -> & Hx). exists i. split.
    + unfold window_at, Py.str in *. by rewrite Hx.
    + apply elem_of_seq. unfold Py.str in *. lia.
Qed.

Lemma window_follower_token tokens n k x :
  1 <= n -> (k, x) ∈ windows tokens n -> x ∈ tokens.
Proof.
  intros Hn (i & _ & _ & Hx)%elem_of_windows; [|done].
  apply list_elem_of_lookup. eauto.
Qed.

Lemma windows_2_cons t x rest :
  windows (t :: x :: rest) 2 = ([t], x) :: windows (x :: rest) 2.
Proof.
  unfold windows, Py.len.
  replace (Z.to_nat (Z.of_nat (length (t :: x :: rest)) - 2 + 1))
    with (S (Z.to_nat (Z.of_nat (length (x :: rest)) - 2 + 1)))
    by (cbn [length]; lia).
  cbn [seq]. rewrite fmap_cons. f_equal.
  rewrite <- fmap_S_seq, <- list_fmap_compose. done.
Qed.

Lemma windows_2_short t : windows [t] 2 = [] /\ windows [] 2 = [].
Proof. done. Qed.

(** With two-token windows, the followers of [w] are its successors. *)
Lemma followers_successors w tokens :
  followers_of [w] (windows tokens 2) = successors w tokens.
Proof.
  induction tokens as [|t rest IH]; [done|].
  destruct rest as [|x rest]; [done|].
  rewrite windows_2_cons, IndexFacts.followers_of_cons, IH.
  cbn [successors]. destruct (decide (t = w)) as [->|Hne].
  - by rewrite decide_True.
  - rewrite decide_False; [done|]. by intros [= ?].
Qed.

Lemma elem_of_successors w x tokens : x ∈ successors w tokens <-> follows tokens w x.
Proof.
  unfold follows. induction tokens as [|t rest IH].
  - split; [by intros ?%elem_of_nil|by intros (i & ? & _)].
  - destruct rest as [|y rest].
    + split; [by intros ?%elem_of_nil|]. intros (i & Hi & Hx).
      by destruct i as [|[|i]].
    + cbn [successors]. destruct (decide (t = w)) as [->|Hne].
      * rewrite elem_of_cons, IH. split.
        -- intros [->|(i & Hi & Hx)]; [by exists 0%nat|by exists (S i)].
        -- intros ([|i] & Hi & Hx); [left; by injection Hx|right; by exists i].
      * rewrite IH. split.
        -- intros (i & Hi & Hx). by exists (S i).
        -- intros ([|i] & Hi & Hx); [by injection Hi|by exists i].
Qed.

End WindowFacts.

Module RankingFacts.

(** What [predict_next] returns, case by case. *)
Lemma predict_next_eval text top_k p :
  outcome (predict_next text top_k) p =
  inr (if negb (trained p) then [msg_not_trained]
       else match last (Py.split text) with
            | None => []
            | Some w =>
                match Py.get_or [w] [] (model p) with
                | [] => [msg_no_predictions]
                | followers => fst <$> Py.slice
                    (Py.sorted Py.pair_ltb rank_key (Py.items (tally followers)))
                    None (Some top_k)
                end
            end).
Proof.
  unfold outcome, predict_next, bind, gets. rewrite TokenFacts.split_strip.
  destruct (trained p); cbn [negb]; [|done].
  destruct (Py.split text) as [|t ts] eqn:Hs; [done|].
  destruct (exists_last (l := t :: ts)) as (ws & w & Hws); [done|].
  rewrite Hws, last_snoc, slice_last.
  replace (is_empty (ws ++ [w])) with false by (by destruct ws).
  by destruct (Py.get_or [w] [] (model p)).
Qed.

Lemma elem_of_slice {A} (l : list A) lo hi x : x ∈ Py.slice l lo hi -> x ∈ l.
Proof.
  unfold Py.slice. intros Hx. by apply subseteq_take, subseteq_drop in Hx.
Qed.

Lemma ranking_perm followers :
  ranking followers ≡ₚ Py.keys (count_all followers []).
Proof. unfold ranking, Py.items. by rewrite sorted_perm. Qed.

Lemma NoDup_ranking followers : NoDup (ranking followers).
Proof.
  rewrite ranking_perm. apply NoDup_keys_count_all, NoDup_nil_2.
Qed.

Lemma elem_of_ranking x followers : x ∈ ranking followers <-> x ∈ followers.
Proof.
  rewrite ranking_perm, elem_of_keys_count_all.
  unfold Py.keys. simpl. rewrite elem_of_nil. tauto.
Qed.

Lemma length_ranking followers :
  length (ranking followers) = length (remove_dups followers).
Proof. by rewrite ranking_perm, keys_count_all_perm. Qed.

Lemma ranking_nil_iff followers : ranking followers = [] <-> followers = [].
Proof.
  rewrite <- !length_zero_iff_nil, length_ranking, !length_zero_iff_nil.
  apply IndexFacts.remove_dups_nil_iff.
Qed.

(** The ranking is in rank order. *)
Lemma ranking_sorted followers :
  StronglySorted (ranks_before followers) (ranking followers).
Proof.
  unfold ranking. apply ranked_words.
  - apply sorted_sorted; [apply pair_ltb_asym|apply pair_not_after_trans].
  - apply Forall_forall. intros x Hx.
    rewrite (sorted_perm Py.pair_ltb rank_key), tally_items in Hx.
    by apply list_elem_of_fmap in Hx as (y & -> & _).
  - apply (NoDup_ranking followers).
Qed.

End RankingFacts.

(* ===================================================================== *)
(** * Further properties of the predictor *)
(* ===================================================================== *)

Import IndexFacts TokenFacts WindowFacts RankingFacts.

(** X1. After [train] with [n >= 1] the number of distinct transitions
    is at most the number of transitions, and either both are zero or
    neither; they are zero exactly when the corpus has fewer than [n]
    tokens. *)
Theorem unique_at_most_total corpus n s e p :
  1 <= n ->
  let p' := after (train corpus n s e) p in
  outcome (train corpus n s e) p = inr tt
  /\ 0 <= unique_transitions p' <= total_transitions p'
  /\ (unique_transitions p' = 0 <-> total_transitions p' = 0)
  /\ (total_transitions p' = 0 <-> Py.len (Py.split corpus) < n).
Proof.
  intros Hn. cbv zeta. unfold outcome, after. rewrite train_run by done.
  cbn [fst snd unique_transitions total_transitions].
  set (pairs := windows (Py.split corpus) n).
  pose proof (length_remove_dups_le pairs) as Hle.
  pose proof (remove_dups_nil_iff pairs) as Hnil.
  pose proof (length_windows (Py.split corpus) n) as Hw. fold pairs in Hw.
  unfold Py.len in *. split_and!; [done|lia|lia| |lia].
  rewrite <- !Nat2Z.inj_0, !Nat2Z.inj_iff, !length_zero_iff_nil. done.
Qed.

(** X2. After [train] with [n >= 1] the index and the transition count
    table agree: for every context and word, the count of the pair is
    the number of times the word stands among the followers of the
    context, and the counts of a context add up to the number of its
    followers. *)
Theorem index_agrees_with_counts corpus n s e p :
  1 <= n ->
  exists transition_counts,
    outcome (train_scan corpus n) p = inr transition_counts
    /\ forall k,
         let followers := Py.get_or k [] (model (after (train corpus n s e) p)) in
         (forall w, default 0 (Py.get (k, w) transition_counts) = occ w followers)
         /\ Py.isum ((fun w => default 0 (Py.get (k, w) transition_counts))
                       <$> remove_dups followers)
            = Py.len followers.
Proof.
  intros Hn. eexists. unfold outcome, after.
  rewrite train_scan_run, train_run by done. cbn [fst snd model].
  split; [reflexivity|]. intros k. cbv zeta.
  set (pairs := windows (Py.split corpus) n).
  assert (Hfs : Py.get_or k [] (record_all pairs []) = followers_of k pairs).
  { unfold Py.get_or. rewrite get_record_all. cbn [Py.get].
    by destruct (followers_of k pairs). }
  rewrite Hfs.
  assert (Hc : forall w, default 0 (Py.get (k, w) (count_all pairs []))
                         = occ w (followers_of k pairs)).
  { intros w. by rewrite get_counts, occ_followers_of. }
  split; [done|].
  rewrite <- (isum_occ_remove_dups (followers_of k pairs)).
  f_equal. apply list_fmap_ext. intros _ w _. apply Hc.
Qed.

(** X3. After [train] with [n >= 1] the index is well formed: no context
    occurs twice, every context has [n - 1] tokens and at least one
    follower, and the follower lists together hold [total_transitions]
    words. *)
Theorem index_well_formed corpus n s e p :
  1 <= n ->
  let p' := after (train corpus n s e) p in
  NoDup (Py.keys (model p'))
  /\ (forall k followers,
        Py.get k (model p') = Some followers ->
        followers <> [] /\ Py.len k = n - 1)
  /\ Py.isum (Py.len <$> Py.values (model p')) = total_transitions p'.
Proof.
  intros Hn. cbv zeta. unfold after. rewrite train_run by done.
  cbn [snd model total_transitions].
  set (pairs := windows (Py.split corpus) n). split_and!.
  - apply NoDup_keys_record_all, NoDup_nil_2.
  - intros k fs. rewrite get_record_all. cbn [Py.get].
    destruct (followers_of k pairs) as [|x fs'] eqn:Hfs; [done|].
    intros [= <-]. split; [done|].
    apply (length_window_context (Py.split corpus) n); [done|].
    assert (Hx : x ∈ followers_of k pairs) by (rewrite Hfs; left).
    apply elem_of_followers_of in Hx. apply list_elem_of_fmap. by exists (k, x).
  - rewrite isum_len_record_all. done.
Qed.

(** X4. After [train] with [n >= 1], [vocab_size] is the number of
    distinct tokens of the corpus, whatever [n] is: at most the number
    of tokens, and zero only for a corpus without tokens. *)
Theorem vocab_size_distinct_tokens corpus n s e p :
  1 <= n ->
  let p' := after (train corpus n s e) p in
  let tokens := Py.split corpus in
  vocab_size p' = Py.len (remove_dups tokens)
  /\ 0 <= vocab_size p' <= Py.len tokens
  /\ (vocab_size p' = 0 <-> tokens = []).
Proof.
  intros Hn. cbv zeta. unfold after. rewrite train_run by done.
  cbn [snd vocab_size]. set (tokens := Py.split corpus).
  assert (Hv : Py.len_set tokens = Py.len (remove_dups tokens)).
  { unfold Py.len_set, Py.len. f_equal.
    rewrite <- (size_list_to_set (C := gset Py.str)) by apply NoDup_remove_dups.
    f_equal. apply set_eq. intros x.
    by rewrite !elem_of_list_to_set, elem_of_remove_dups. }
  rewrite Hv. pose proof (length_remove_dups_le tokens) as Hle.
  pose proof (remove_dups_nil_iff tokens) as Hnil.
  unfold Py.len in *. split_and!; [done|lia|lia|].
  rewrite <- Nat2Z.inj_0, Nat2Z.inj_iff, length_zero_iff_nil. done.
Qed.

(** The followers the index holds for a context after [train]. *)
Lemma followers_after_train corpus n s e p k :
  1 <= n ->
  Py.get_or k [] (model (after (train corpus n s e) p))
  = followers_of k (windows (Py.split corpus) n).
Proof.
  intros Hn. unfold after. rewrite train_run by done. cbn [snd model].
  unfold Py.get_or. rewrite get_record_all. cbn [Py.get].
  by destruct (followers_of _ _).
Qed.

Lemma trained_after_train corpus n s e p :
  1 <= n -> trained (after (train corpus n s e) p) = true.
Proof. intros Hn. unfold after. by rewrite train_run. Qed.

Lemma msg_no_predictions_not_word : ~ is_word msg_no_predictions.
Proof.
  intros [_ H]. rewrite Forall_forall in H.
  specialize (H 32%N). discriminate H. right; left.
Qed.

Lemma msg_not_trained_not_word : ~ is_word msg_not_trained.
Proof.
  intros [_ H]. rewrite Forall_forall in H.
  specialize (H 32%N). discriminate H. right; right; left.
Qed.

(** X5. After [train] with [n >= 1], whatever [predict_next] returns is
    either the message that no prediction is available or a list of
    tokens of the corpus, each of them non-empty and free of white
    space; and neither message of [predict_next] is a token, so a
    message is never mistaken for a prediction. *)
Theorem predictions_are_corpus_tokens corpus n s e p text top_k :
  1 <= n ->
  let tokens := Py.split corpus in
  (exists l,
     outcome (predict_next text top_k) (after (train corpus n s e) p) = inr l
     /\ (l = [msg_no_predictions]
         \/ Forall (fun x => x ∈ tokens /\ is_word x) l))
  /\ (msg_no_predictions ∉ tokens)
  /\ (msg_not_trained ∉ tokens).
Proof.
  intros Hn tokens.
  pose proof (split_words corpus) as Hwords. fold tokens in Hwords.
  rewrite Forall_forall in Hwords. split_and!.
  - eexists. split; [apply predict_next_eval|].
    rewrite trained_after_train by done. cbn [negb].
    destruct (last (Py.split text)) as [w|]; [|by right].
    rewrite followers_after_train by done.
    destruct (followers_of [w] _) as [|f fs] eqn:Hfs; [by left|]. right.
    apply Forall_forall. intros x Hx.
    apply list_elem_of_fmap in Hx as (item & -> & Hitem%elem_of_slice).
    assert (Hin : item.1 ∈ ranking (f :: fs)).
    { unfold ranking. by apply list_elem_of_fmap_2. }
    rewrite elem_of_ranking, <- Hfs, elem_of_followers_of in Hin.
    apply window_follower_token in Hin; [|done]. auto.
  - intros H. by apply msg_no_predictions_not_word, Hwords.
  - intros H. by apply msg_not_trained_not_word, Hwords.
Qed.

(** X6. After [train] with [n = 2] the index maps a word to the tokens
    that come right after its occurrences in the corpus, in corpus
    order. For a prefix whose last token is [w] and [top_k >= 1],
    [predict_next] answers that no prediction is available when nothing
    comes after [w] in the corpus; otherwise it returns the first
    [top_k] of a non-empty list without repetition that holds exactly
    the words that come right after [w] somewhere in the corpus, ordered
    by how often they do, ties by the smaller word. *)
Theorem bigram_prediction corpus s e p text top_k w :
  last (Py.split text) = Some w ->
  1 <= top_k ->
  let tokens := Py.split corpus in
  let p' := after (train corpus 2 s e) p in
  Py.get_or [w] [] (model p') = successors w tokens
  /\ ((forall x, ~ follows tokens w x) ->
      outcome (predict_next text top_k) p' = inr [msg_no_predictions])
  /\ ((exists x, follows tokens w x) ->
      exists ranked,
        outcome (predict_next text top_k) p' = inr (take (Z.to_nat top_k) ranked)
        /\ ranked <> []
        /\ NoDup ranked
        /\ (forall x, x ∈ ranked <-> follows tokens w x)
        /\ StronglySorted (ranks_before (successors w tokens)) ranked).
Proof.
  intros Hw Hk tokens p'.
  assert (Hfs : Py.get_or [w] [] (model p') = successors w tokens).
  { unfold p'. rewrite followers_after_train by lia. apply followers_successors. }
  assert (Hout : outcome (predict_next text top_k) p' =
                 inr (match successors w tokens with
                      | [] => [msg_no_predictions]
                      | _ => take (Z.to_nat top_k) (ranking (successors w tokens))
                      end)).
  { rewrite predict_next_eval. unfold p' at 1.
    rewrite trained_after_train by lia. cbn [negb]. rewrite Hw, Hfs.
    destruct (successors w tokens); [done|].
    by rewrite slice_prefix, fmap_take by lia. }
  split_and!; [done| |].
  - intros Hnone. rewrite Hout.
    destruct (successors w tokens) as [|x fs] eqn:Hs; [done|].
    exfalso. apply (Hnone x), elem_of_successors. rewrite Hs. left.
  - intros (x & Hx%elem_of_successors).
    exists (ranking (successors w tokens)). split_and!.
    + rewrite Hout. destruct (successors w tokens); [|done].
      by apply elem_of_nil in Hx.
    + rewrite ranking_nil_iff. intros Hnil. rewrite Hnil in Hx.
      by apply elem_of_nil in Hx.
    + apply NoDup_ranking.
    + intros y. by rewrite elem_of_ranking, elem_of_successors.
    + apply ranking_sorted.
Qed.

(** X7. [predict_next] looks at nothing of the prefix but its last
    token: two prefixes with the same last token, or both without a
    token, get the same answer from the same model. *)
Theorem predict_next_last_token_only text1 text2 top_k p :
  last (Py.split text1) = last (Py.split text2) ->
  outcome (predict_next text1 top_k) p = outcome (predict_next text2 top_k) p.
Proof. intros H. by rewrite !predict_next_eval, H. Qed.

Lemma slice_upto {A} (l : list A) (k : Z) :
  Py.slice l None (Some k) =
  take (Z.to_nat (if k <? 0 then Py.len l + k else k)) l.
Proof.
  destruct (k <? 0) eqn:Hk; [|apply slice_prefix; lia].
  unfold Py.slice, Py.clip. rewrite Hk, drop_0, Z.sub_0_r.
  f_equal. lia.
Qed.

(** X8. For a trained model and a prefix whose last token has followers,
    the words are ranked without regard to [top_k], and [top_k] only
    cuts the ranking as a slice bound does: zero gives the empty list, a
    bound beyond the number of distinct followers gives them all, and a
    negative [top_k] drops that many words from the end of the
    ranking. *)
Theorem top_k_cuts_the_ranking text w followers p :
  trained p = true ->
  last (Py.split text) = Some w ->
  Py.get_or [w] [] (model p) = followers ->
  followers <> [] ->
  Py.len (ranking followers) = Py.len (remove_dups followers)
  /\ forall top_k,
       outcome (predict_next text top_k) p =
       inr (take (Z.to_nat (if top_k <? 0
                            then Py.len (ranking followers) + top_k
                            else top_k))
                 (ranking followers)).
Proof.
  intros Htr Hw Hget Hne. split.
  - unfold Py.len. by rewrite length_ranking.
  - intros top_k. rewrite predict_next_eval, Htr, Hw, Hget. cbn [negb].
    destruct followers as [|f fs]; [done|].
    rewrite slice_upto, fmap_take. unfold ranking, Py.len.
    by rewrite !length_fmap.
Qed.

(** X9. With [top_k >= 1], [predict_next] returns the empty list exactly
    when the model is trained and the prefix has no token; for every
    other prefix it returns at least one entry, a word or a message. *)
Theorem empty_answer_iff_blank_prefix text top_k p :
  1 <= top_k ->
  outcome (predict_next text top_k) p = inr []
  <-> trained p = true /\ Py.split text = [].
Proof.
  intros Hk. rewrite predict_next_eval. split.
  - destruct (trained p); cbn [negb]; [|done].
    destruct (Py.split text) as [|t ts] eqn:Hs; [done|].
    destruct (exists_last (l := t :: ts)) as (ws & w & Hws); [done|].
    rewrite Hws, last_snoc.
    destruct (Py.get_or [w] [] (model p)) as [|f fs] eqn:Hfs; [done|].
    rewrite slice_prefix, fmap_take by lia. fold (ranking (f :: fs)).
    intros [= Hnil]. exfalso.
    destruct (ranking (f :: fs)) as [|r rs] eqn:Hr.
    + apply (proj1 (ranking_nil_iff _)) in Hr. discriminate Hr.
    + destruct (Z.to_nat top_k) eqn:Hn; [lia|]. simpl in Hnil. discriminate.
  - intros [-> ->]. done.
Qed.

Module ErrorFacts.

(** An index is read exactly from [-len] up to [len - 1]. *)
Lemma index_in_range {A} (l : list A) (i : Z) :
  - Py.len l <= i < Py.len l -> exists x, Py.index l i = inr x.
Proof.
  intros Hi. unfold Py.index, Py.len in *.
  set (j := if i <? 0 then i + Z.of_nat (length l) else i).
  assert (Hj : 0 <= j < Z.of_nat (length l)).
  { unfold j. destruct (i <? 0) eqn:H; lia. }
  destruct (0 <=? j) eqn:H1; [|lia].
  destruct (j <? Z.of_nat (length l)) eqn:H2; [|lia]. cbn [andb].
  destruct (l !! Z.to_nat j) as [x|] eqn:Hx; [by exists x|].
  apply lookup_ge_None in Hx. lia.
Qed.

Lemma index_out_of_range {A} (l : list A) (i : Z) :
  i < - Py.len l -> Py.index l i = inl Py.IndexError.
Proof.
  intros Hi. unfold Py.index, Py.len in *.
  destruct (i <? 0) eqn:H; [|lia].
  destruct (0 <=? i + Z.of_nat (length l)) eqn:H1; [lia|done].
Qed.

Lemma for_each_scanned tokens n (js : list Z) tc p :
  (forall i, i ∈ js -> exists x, Py.index tokens (i + n - 1) = inr x) ->
  for_each js (scan_step tokens n) tc p =
  (inr (count_all (scanned_at tokens n <$> js) tc),
   with_model (record_all (scanned_at tokens n <$> js) (model p)) p).
Proof.
  revert tc p. induction js as [|i js IH]; intros tc p Hall.
  - by destruct p.
  - rewrite !fmap_cons. cbn [for_each]. unfold bind at 1.
    destruct (Hall i) as [x Hx]; [left|].
    unfold scan_step at 1, bind, scanned_at at 1 3. rewrite Hx. cbn [call ret modify].
    rewrite IH by (intros j Hj; by apply Hall, list_elem_of_further).
    reflexivity.
Qed.

(** [train] when every position the loop visits can be read: it does
    not raise, and the object it leaves is built from the pairs read at
    these positions and the file attributes of the object before. *)
Lemma train_scanned_run corpus n s e p :
  (forall i, 0 <= i < Py.len (Py.split corpus) - n + 1 ->
             exists x, Py.index (Py.split corpus) (i + n - 1) = inr x) ->
  let pairs := scanned_at (Py.split corpus) n
               <$> Py.range (Py.len (Py.split corpus) - n + 1) in
  train corpus n s e p =
  (inr tt,
   {| model := record_all pairs [];
      trained := true;
      training_time := Py.Float (Py.fsub e s);
      vocab_size := Py.len_set (Py.split corpus);
      unique_transitions := Py.len (count_all pairs []);
      total_transitions := Py.len pairs;
      f1_score := harmonic_mean
                    (precision_of (Py.sum_gt1 (Py.values (count_all pairs [])))
                                  (Py.len (count_all pairs [])))
                    (recall_of (Py.sum_gt1 (Py.values (count_all pairs [])))
                               (Py.len pairs));
      file_size := file_size p;
      file_name := file_name p |}).
Proof.
  intros Hall pairs.
  assert (Hscan : train_scan corpus n p =
    (inr (count_all pairs []),
     with_model (record_all pairs [])
       (with_vocab_size (Py.len_set (Py.split corpus)) (with_model [] p)))).
  { unfold train_scan, scan, bind, modify.
    rewrite for_each_scanned; [done|].
    intros i Hi. apply Hall. unfold Py.range in Hi.
    apply list_elem_of_fmap in Hi as (j & -> & Hj%elem_of_seq). lia. }
  unfold train, bind. rewrite Hscan.
  rewrite train_metrics_run by apply values_counts_nonneg.
  by rewrite isum_values_counts.
Qed.

(** The loop of [train] does not raise when every position it visits can
    be read. *)
Lemma train_no_raise corpus n s e p :
  (forall i, 0 <= i < Py.len (Py.split corpus) - n + 1 ->
             exists x, Py.index (Py.split corpus) (i + n - 1) = inr x) ->
  outcome (train corpus n s e) p = inr tt
  /\ trained (after (train corpus n s e) p) = true
  /\ total_transitions (after (train corpus n s e) p)
     = Z.max 0 (Py.len (Py.split corpus) - n + 1).
Proof.
  intros Hall. unfold outcome, after. rewrite train_scanned_run by done.
  cbn [fst snd trained total_transitions]. split_and!; [done..|].
  unfold Py.len, Py.range. rewrite !length_fmap, length_seq. lia.
Qed.

(** The positions the loop of [train] visits can all be read for
    [n >= 1], and for [n <= 0] on a corpus of [1 - n] tokens or more. *)
Lemma positions_readable {A} (tokens : list A) n :
  1 <= n \/ 1 - n <= Py.len tokens ->
  forall i, 0 <= i < Py.len tokens - n + 1 ->
            exists x, Py.index tokens (i + n - 1) = inr x.
Proof.
  intros Hn i Hi. apply index_in_range. unfold Py.len in *. lia.
Qed.

End ErrorFacts.

Import ErrorFacts.

(** X10. [train] with [n <= 0] on a corpus of fewer than [1 - n] tokens
    raises [IndexError] at the first position. The object is left half
    updated: the index is cleared and [vocab_size] overwritten, while
    the trained flag and the other statistics keep their old values; a
    model that was trained before then answers that no prediction is
    available for every prefix that has a token. *)
Theorem train_index_error corpus n s e p :
  n <= 0 ->
  Py.len (Py.split corpus) < 1 - n ->
  let p' := after (train corpus n s e) p in
  outcome (train corpus n s e) p = inl Py.IndexError
  /\ p' = with_vocab_size (Py.len_set (Py.split corpus)) (with_model [] p)
  /\ (forall text top_k,
        trained p = true -> Py.split text <> [] ->
        outcome (predict_next text top_k) p' = inr [msg_no_predictions]).
Proof.
  intros Hn Hlen.
  assert (Hrun : train corpus n s e p =
    (inl Py.IndexError,
     with_vocab_size (Py.len_set (Py.split corpus)) (with_model [] p))).
  { unfold train, train_scan, scan, bind at 1 2 3, modify, Py.range.
    destruct (Z.to_nat (Py.len (Py.split corpus) - n + 1)) as [|m] eqn:Hm.
    { unfold Py.len in *. lia. }
    cbn [seq fmap list_fmap for_each]. unfold bind at 1, scan_step, bind at 1.
    rewrite index_out_of_range by (simpl; lia). done. }
  cbv zeta. unfold outcome, after. rewrite Hrun. cbn [fst snd]. split_and!; [done..|].
  intros text top_k Htr Hne.
  pose proof (predict_next_eval text top_k
    (with_vocab_size (Py.len_set (Py.split corpus)) (with_model [] p))) as He.
  unfold outcome in He. rewrite He. cbn [trained with_vocab_size with_model model].
  rewrite Htr. cbn [negb].
  destruct (Py.split text) as [|t ts]; [done|].
  destruct (exists_last (l := t :: ts)) as (ws & w & ->); [done|].
  by rewrite last_snoc.
Qed.

(** X11. In every other case, that is for [n >= 1] or a corpus of at
    least [1 - n] tokens, [train] returns normally, sets the trained
    flag and stores [max(0, token_count - n + 1)] transitions: an
    [IndexError] on a short corpus with [n <= 0] is the only way
    [train] can fail. *)
Theorem train_returns corpus n s e p :
  1 <= n \/ 1 - n <= Py.len (Py.split corpus) ->
  let p' := after (train corpus n s e) p in
  outcome (train corpus n s e) p = inr tt
  /\ trained p' = true
  /\ total_transitions p' = Z.max 0 (Py.len (Py.split corpus) - n + 1).
Proof.
  intros Hn. apply train_no_raise. by apply positions_readable.
Qed.

Module QuotientFacts.

(** A mantissa that is at most [2 ^ (c - e)] stays so under rounding,
    and its exponent stays at most [c]. *)
Lemma shr_fexp_bounded c m e l :
  0 <= c -> 0 <= m <= 2 ^ (c - e) -> e <= c ->
  0 <= shr_m (shr_fexp 53 1024 m e l).1
       <= 2 ^ (c - (shr_fexp 53 1024 m e l).2)
  /\ (shr_fexp 53 1024 m e l).2 <= c.
Proof.
  intros Hc Hm He. unfold shr_fexp. rewrite fexp64.
  assert (Hd : Zdigits2 m <= c - e + 1).
  { apply digits2_upper; [|lia]. rewrite Z.pow_add_r by lia. lia. }
  destruct (Z.max (Zdigits2 m + e - 53) emin64 - e) as [|k|k] eqn:Hn;
    cbn [shr fst snd]; rewrite ?shr_record_of_loc_m; try lia.
  rewrite iter_shr_1_m by (rewrite shr_record_of_loc_m; lia).
  rewrite shr_record_of_loc_m. unfold emin64 in *.
  split; [|lia]. split; [apply Z.div_pos; lia|].
  replace (c - (e + Z.pos k)) with (c - e - Z.pos k) by lia.
  rewrite Z.pow_sub_r by lia.
  apply Z.div_le_mono; [lia|]. lia.
Qed.

(** Rounding a value that is at most [2 ^ c], for [c <= 970], gives
    zero or a finite value. *)
Lemma binary_round_aux_bounded c s m e l :
  0 <= c <= 970 -> 0 <= m <= 2 ^ (c - e) -> e <= 0 ->
  match binary_round_aux 53 1024 s m e l with
  | S754_zero _ | S754_finite _ _ _ => True
  | _ => False
  end.
Proof.
  intros Hc Hm He. unfold binary_round_aux.
  pose proof (shr_fexp_bounded c m e l ltac:(lia) Hm ltac:(lia)) as [H1 H1e].
  destruct (shr_fexp 53 1024 m e l) as [mrs1 e1]. cbn [fst snd] in *.
  pose proof (round_nearest_even_bounds (shr_m mrs1) (loc_of_shr_record mrs1)) as Hr.
  set (m2 := round_nearest_even _ _) in *.
  assert (Hm2 : 0 <= m2 <= 2 ^ (c + 1 - e1)).
  { replace (c + 1 - e1) with (1 + (c - e1)) by lia.
    rewrite Z.pow_add_r by lia.
    assert (0 < 2 ^ (c - e1)) by (apply Z.pow_pos_nonneg; lia). lia. }
  pose proof (shr_fexp_bounded (c + 1) m2 e1 loc_Exact ltac:(lia) Hm2 ltac:(lia))
    as [H2 H2e].
  destruct (shr_fexp 53 1024 m2 e1 loc_Exact) as [mrs2 e2]. cbn [fst snd] in *.
  destruct (shr_m mrs2) as [|q|q]; [exact I| |lia].
  destruct (e2 <=? 1024 - 53) eqn:Hle; [exact I|lia].
Qed.

Lemma fdiv_bounded_finite c a b :
  0 <= c <= 970 -> Z.pos a <= 2 ^ c * Z.pos b ->
  match Py.fdiv (S754_finite false a 0) (S754_finite false b 0) with
  | S754_zero _ | S754_finite _ _ _ => True
  | _ => False
  end.
Proof.
  intros Hc Hab. unfold Py.fdiv, SFdiv, SFdiv_core_binary.
  rewrite !Z.add_0_r, Z.sub_diag, Z.sub_0_l.
  set (e' := Z.min _ 0).
  assert (He' : e' <= 0) by (unfold e'; lia).
  set (m' := match - e' with Z.pos _ => _ | 0 => _ | Z.neg _ => _ end).
  assert (Hm' : m' = Z.pos a * 2 ^ (- e')).
  { unfold m'. destruct (- e') as [|k|k] eqn:Hk; try lia.
    by rewrite Z.shiftl_mul_pow2. }
  pose proof (Z_div_mod m' (Z.pos b) ltac:(lia)) as Hdiv.
  destruct (Z.div_eucl m' (Z.pos b)) as [q r]. destruct Hdiv as [Hq Hr].
  apply (binary_round_aux_bounded c); [done| |done].
  assert (Hpow : 0 < 2 ^ (- e')) by (apply Z.pow_pos_nonneg; lia).
  replace (c - e') with (c + - e') by lia. rewrite Z.pow_add_r by lia.
  split; [nia|].
  assert (Z.pos b * q <= Z.pos b * (2 ^ c * 2 ^ (- e'))); [|nia].
  nia.
Qed.

(** A natural number divided by a positive one: the division returns
    when the quotient is at most [2 ^ 970]. *)
Lemma int_truediv_bounded a b :
  0 <= a <= 2 ^ 970 * b -> 0 < b ->
  Py.int_truediv a b = inr (Py.fdiv (Py.exact_int a) (Py.exact_int b)).
Proof.
  intros Hab Hb. unfold Py.int_truediv.
  destruct (b =? 0) eqn:Hb0; [lia|].
  destruct a as [|p|p], b as [|q|q]; try lia; [reflexivity|].
  pose proof (fdiv_bounded_finite 970 p q ltac:(lia) ltac:(lia)) as Hfin.
  cbn [Py.exact_int]. by destruct (Py.fdiv _ _).
Qed.

(** The text of a number never fails on a [float]. *)
Lemma format_f_float d x : Py.format_f d (Py.Float x) = inr (Py.format_float d x).
Proof. reflexivity. Qed.

(** The score [train] stores is formatted without an error. *)
Lemma format_f_harmonic_mean d x y :
  exists t, Py.format_f d (harmonic_mean x y) = inr t.
Proof.
  unfold harmonic_mean. destruct (_ && _); [|by eexists]. by eexists.
Qed.

End QuotientFacts.

Import QuotientFacts.

Lemma len_set_remove_dups (tokens : list Py.str) :
  Py.len_set tokens = Py.len (remove_dups tokens).
Proof.
  unfold Py.len_set, Py.len. f_equal.
  rewrite <- (size_list_to_set (C := gset Py.str)) by apply NoDup_remove_dups.
  f_equal. apply set_eq. intros x.
  by rewrite !elem_of_list_to_set, elem_of_remove_dups.
Qed.

(** X12. [get_stats] right after [train] with [n >= 1] does not raise
    (for a file size and a token count of at most [2 ^ 970]) and leaves
    the object as it is. The record names the file the object had before
    training, the number of distinct tokens, of distinct transitions and
    of transitions, and its compression ratio is the text N/A exactly
    when the corpus has fewer than [n] tokens. *)
Theorem get_stats_after_train corpus n s e p :
  1 <= n ->
  0 <= file_size p <= 2 ^ 970 ->
  Py.len (Py.split corpus) <= 2 ^ 970 ->
  let p' := after (train corpus n s e) p in
  let tokens := Py.split corpus in
  exists st,
    outcome get_stats p' = inr st
    /\ after get_stats p' = p'
    /\ st_file_name st = file_name p
    /\ st_vocab_size st = Py.len (remove_dups tokens)
    /\ st_unique_transitions st = Py.len (remove_dups (windows tokens n))
    /\ st_total_transitions st = Z.max 0 (Py.len tokens - n + 1)
    /\ (st_compression_ratio st = Py.lit "N/A" <-> Py.len tokens < n).
Proof.
  intros Hn Hsize Hlen. cbv zeta. unfold outcome, after. rewrite train_run by done.
  cbn [snd]. set (tokens := Py.split corpus) in *.
  set (pairs := windows tokens n).
  pose proof (length_remove_dups_le pairs) as Hle.
  pose proof (remove_dups_nil_iff pairs) as Hnil.
  pose proof (length_windows tokens n) as Hw. fold pairs in Hw.
  pose proof (length_remove_dups_le tokens) as Hvle.
  destruct (format_f_harmonic_mean 3
    (precision_of (repeated pairs) (Py.len (remove_dups pairs)))
    (recall_of (repeated pairs) (Py.len pairs))) as [f1_text Hf1].
  unfold get_stats, bind, gets.
  cbn [file_size training_time f1_score unique_transitions vocab_size
       total_transitions file_name].
  rewrite int_truediv_bounded by lia. cbn [call ret].
  rewrite Hf1. cbn [call ret Py.format_f Py.to_float Py.and_then].
  unfold Py.truthy.
  destruct (Py.len (remove_dups pairs) =? 0) eqn:Hu; cbn [negb call ret].
  - apply Z.eqb_eq in Hu. eexists. unfold ret. split; [reflexivity|].
    cbn [fst snd st_file_name st_vocab_size st_unique_transitions
         st_total_transitions st_compression_ratio].
    split_and!; try done.
    + apply len_set_remove_dups.
    + split; [intros _|done].
      assert (remove_dups pairs = []) as Hp%Hnil.
      { apply length_zero_iff_nil. unfold Py.len in Hu. lia. }
      assert (H0 : Py.len pairs = 0) by (by rewrite Hp).
      clear Hsize Hlen. lia.
  - apply Z.eqb_neq in Hu.
    assert (Hu1 : 1 <= Py.len (remove_dups pairs)) by (unfold Py.len in *; lia).
    assert (Hb : 0 <= Py.len_set tokens <= 2 ^ 970 * Py.len (remove_dups pairs)).
    { rewrite len_set_remove_dups. split; [unfold Py.len; lia|].
      trans (2 ^ 970 * 1); [unfold Py.len in *; lia|].
      apply Z.mul_le_mono_nonneg_l; [done|lia]. }
    rewrite int_truediv_bounded by (done || lia).
    cbn [call ret Py.format_f Py.to_float Py.and_then]. eexists. unfold ret. split; [reflexivity|].
    cbn [fst snd st_file_name st_vocab_size st_unique_transitions
         st_total_transitions st_compression_ratio].
    split_and!; try done.
    + apply len_set_remove_dups.
    + split.
      * intros Heq. apply (f_equal last) in Heq.
        change (Py.lit "x") with [120%N] in Heq.
        change (Py.lit "N/A") with [78%N; 47%N; 65%N] in Heq.
        rewrite last_snoc in Heq. discriminate Heq.
      * intros Hlt. assert (H0 : Py.len pairs = 0) by (clear Hsize Hlen; lia).
        destruct pairs; [done|]. discriminate H0.
Qed.

Module AppFacts.



End AppFacts.

Import AppFacts.


Module ScoreFacts.

Lemma digits2_lt p : Z.pos p < 2 ^ Z.pos (digits2_pos p).
Proof.
  induction p as [p IH|p IH|]; simpl digits2_pos; [| |reflexivity].
  - rewrite Pos2Z.inj_succ, Z.pow_succ_r by lia. lia.
  - rewrite Pos2Z.inj_succ, Z.pow_succ_r by lia. lia.
Qed.

(** The quotient of a positive integer by one that is not smaller, and
    below [2 ^ 1000], does not round to zero. *)
Lemma fdiv_pos_nonzero a b :
  (a <= b)%positive -> Z.pos b < 2 ^ 1000 ->
  Py.is_zero (Py.fdiv (S754_finite false a 0) (S754_finite false b 0)) = false.
Proof.
  intros Hab Hb. unfold Py.fdiv, SFdiv, SFdiv_core_binary.
  rewrite !Z.add_0_r, Z.sub_diag, Z.sub_0_l. cbn [Zdigits2]. rewrite fexp64.
  pose proof (digits2_lower a) as Hla. pose proof (digits2_lt b) as Hub.
  pose proof (digits2_lower b) as Hlb.
  pose proof (Pos2Z.is_pos (digits2_pos a)) as Hpa.
  pose proof (Pos2Z.is_pos (digits2_pos b)) as Hpb.
  set (da := Z.pos (digits2_pos a)) in *. set (db := Z.pos (digits2_pos b)) in *.
  assert (Hdb : db - 1 < 1000).
  { apply (Z.pow_lt_mono_r_iff 2); lia. }
  assert (Hdab : da - 1 < db).
  { apply (Z.pow_lt_mono_r_iff 2); lia. }
  set (e' := Z.min _ 0).
  assert (He' : e' = da - db - 53) by (unfold e', emin64; lia).
  set (m' := match - e' with Z.pos _ => _ | 0 => _ | Z.neg _ => _ end).
  assert (Hm' : m' = Z.pos a * 2 ^ (- e')).
  { unfold m'. destruct (- e') as [|k|k] eqn:Hk; try lia.
    by rewrite Z.shiftl_mul_pow2. }
  pose proof (Z_div_mod m' (Z.pos b) ltac:(lia)) as Hdiv.
  destruct (Z.div_eucl m' (Z.pos b)) as [q r]. destruct Hdiv as [Hq Hr].
  apply binary_round_aux_pos; [|unfold emin64; lia].
  assert (Hbm : Z.pos b <= m').
  { rewrite Hm', He'.
    replace (- (da - db - 53)) with ((db - (da - 1)) + 52) by lia.
    rewrite Z.pow_add_r by lia.
    assert (H1 : 2 ^ db = 2 ^ (da - 1) * 2 ^ (db - (da - 1))).
    { rewrite <- Z.pow_add_r by lia. f_equal. lia. }
    assert (H2 : 0 < 2 ^ (db - (da - 1))) by (apply Z.pow_pos_nonneg; lia).
    assert (H3 : 1 <= 2 ^ 52) by done.
    clear Hb. nia. }
  clear Hb. nia.
Qed.

Lemma occ_NoDup `{EqDecision A} (l : list A) :
  NoDup l <-> forall x, occ x l <= 1.
Proof.
  induction l as [|y l IH].
  - split; [intros _ x; by rewrite occ_nil|constructor].
  - rewrite NoDup_cons, IH. split.
    + intros [Hy Hl] x. rewrite occ_cons. specialize (Hl x).
      case_decide as Hx; [subst x|lia].
      destruct (decide (0 < occ y l)) as [Hp%occ_pos|Hp]; [done|].
      pose proof (occ_nonneg y l). lia.
    + intros Hocc. split.
      * intros Hy%occ_pos. specialize (Hocc y). rewrite occ_cons in Hocc.
        rewrite decide_True in Hocc by done. lia.
      * intros x. specialize (Hocc x). rewrite occ_cons in Hocc.
        case_decide; lia.
Qed.

(** No pair counts as repeated exactly when all pairs are distinct. *)
Lemma repeated_zero_iff pairs : repeated pairs = 0 <-> NoDup pairs.
Proof.
  rewrite occ_NoDup. unfold repeated, Py.len.
  rewrite <- Nat2Z.inj_0, Nat2Z.inj_iff, length_zero_iff_nil. split.
  - intros Hnil x. destruct (decide (x ∈ pairs)) as [Hx|Hx].
    + destruct (decide (1 < occ x pairs)) as [Hgt|]; [|lia].
      assert (Hin : x ∈ filter (fun kw => 1 < occ kw pairs) (remove_dups pairs)).
      { apply list_elem_of_filter. split; [done|]. by apply elem_of_remove_dups. }
      rewrite Hnil in Hin. by apply elem_of_nil in Hin.
    + destruct (decide (0 < occ x pairs)) as [Hp%occ_pos|Hp]; [done|lia].
  - intros Hocc. destruct (filter _ _) as [|x t] eqn:Hf; [done|].
    assert (Hin : x ∈ filter (fun kw => 1 < occ kw pairs) (remove_dups pairs)).
    { rewrite Hf. left. }
    apply list_elem_of_filter in Hin as [Hgt _]. specialize (Hocc x). lia.
Qed.

Lemma repeated_bounds pairs :
  0 <= repeated pairs <= Py.len (remove_dups pairs).
Proof.
  unfold repeated, Py.len. split; [lia|].
  apply Nat2Z.inj_le, length_filter.
Qed.

End ScoreFacts.

Import ScoreFacts.

(** X14. After [train] with [n >= 1] on a corpus of at most [2 ^ 970]
    tokens, [f1_score] is the integer 0 exactly when no transition
    occurs twice, that is when all windows of the corpus are distinct;
    as soon as one transition repeats, the score is a [float]. *)
Theorem f1_score_zero_iff_distinct corpus n s e p :
  1 <= n ->
  Py.len (Py.split corpus) <= 2 ^ 970 ->
  let p' := after (train corpus n s e) p in
  let pairs := windows (Py.split corpus) n in
  (f1_score p' = Py.Int 0 <-> NoDup pairs)
  /\ (~ NoDup pairs -> exists x, f1_score p' = Py.Float x).
Proof.
  intros Hn Hlen. cbv zeta. unfold after. rewrite train_run by done.
  cbn [snd f1_score]. set (pairs := windows (Py.split corpus) n).
  pose proof (repeated_bounds pairs) as Hrep.
  pose proof (length_remove_dups_le pairs) as Hle.
  pose proof (length_windows (Py.split corpus) n) as Hw. fold pairs in Hw.
  rewrite <- repeated_zero_iff.
  destruct (decide (repeated pairs = 0)) as [H0|H0].
  - split; [|done]. split; [done|intros _]. rewrite H0.
    unfold harmonic_mean, precision_of, recall_of.
    assert (Hz : forall u, Py.is_zero
      (if u =? 0 then Py.fzero else Py.fdiv (Py.exact_int 0) (Py.exact_int u))
      = true).
    { intros u. destruct (u =? 0) eqn:Hu; [done|]. by destruct u. }
    by rewrite !Hz.
  - assert (Hp : Py.is_zero
      (precision_of (repeated pairs) (Py.len (remove_dups pairs))) = false).
    { unfold precision_of.
      destruct (Py.len (remove_dups pairs) =? 0) eqn:Hu; [lia|].
      destruct (repeated pairs) as [|c|c] eqn:Hc; [done| |lia].
      destruct (Py.len (remove_dups pairs)) as [|u|u] eqn:Hu'; [lia| |lia].
      cbn [Py.exact_int]. apply fdiv_pos_nonzero; [lia|].
      assert (Z.pos u <= 2 ^ 970) by (unfold Py.len in *; lia).
      assert (2 ^ 970 < 2 ^ 1000) by done. lia. }
    unfold harmonic_mean. rewrite Hp. cbn [andb].
    split; [split; [discriminate|done]|]. intros _. by eexists.
Qed.

Module OrderIndependence.

Lemma occ_Permutation `{EqDecision A} (x : A) (l1 l2 : list A) :
  l1 ≡ₚ l2 -> occ x l1 = occ x l2.
Proof. intros H. unfold occ. by rewrite H. Qed.

Lemma ranks_before_antisym l a b :
  ranks_before l a b -> ranks_before l b a -> a = b.
Proof.
  intros [H1|[H1 L1]] [H2|[H2 L2]]; try lia.
  destruct (lex_lt_irrefl a). by apply (lex_lt_trans a b a).
Qed.

Lemma StronglySorted_weaken {A} (R R' : A -> A -> Prop) l :
  (forall x y, R x y -> R' x y) -> StronglySorted R l -> StronglySorted R' l.
Proof.
  intros HR. induction 1 as [|x l Hl IH Hx]; constructor; [done|].
  eapply Forall_impl; [exact Hx|]. intros y. apply HR.
Qed.

(** Two lists in the same antisymmetric order with the same elements
    are the same list. *)
Lemma sorted_same {A} (R : A -> A -> Prop) (l1 l2 : list A) :
  (forall x y, R x y -> R y x -> x = y) ->
  StronglySorted R l1 -> StronglySorted R l2 -> l1 ≡ₚ l2 -> l1 = l2.
Proof.
  intros Hanti Hs1. revert l2.
  induction Hs1 as [|x l1 Hs1 IH Hx]; intros l2 Hs2 Hperm.
  - by apply Permutation_nil_l in Hperm.
  - destruct Hs2 as [|y l2 Hs2 Hy]; [by apply Permutation_nil_r in Hperm|].
    rewrite Forall_forall in Hx, Hy.
    assert (Hxy : x = y).
    { assert (Hx2 : x ∈ y :: l2) by (rewrite <- Hperm; left).
      assert (Hy1 : y ∈ x :: l1) by (rewrite Hperm; left).
      apply elem_of_cons in Hx2 as [Heq|Hx2]; [done|].
      apply elem_of_cons in Hy1 as [Heq|Hy1]; [done|].
      apply Hanti; [by apply Hx|by apply Hy]. }
    subst y. f_equal. apply IH; [done|].
    by apply Permutation_cons_inv in Hperm.
Qed.

(** The ranking depends on the followers as a multiset only. *)
Lemma ranking_Permutation followers1 followers2 :
  followers1 ≡ₚ followers2 -> ranking followers1 = ranking followers2.
Proof.
  intros Hperm.
  apply (sorted_same (ranks_before followers1)).
  - intros a b. apply ranks_before_antisym.
  - apply ranking_sorted.
  - apply (StronglySorted_weaken (ranks_before followers2)); [|apply ranking_sorted].
    intros a b. unfold ranks_before.
    by rewrite !(occ_Permutation _ followers1 followers2).
  - apply NoDup_Permutation; [apply NoDup_ranking..|].
    intros x. by rewrite !elem_of_ranking, Hperm.
Qed.

End OrderIndependence.

Import OrderIndependence.

(** X15. The answer of [predict_next] depends on the followers of the
    last token as a multiset only: two objects, both trained, that hold
    the same followers for this token in a different order answer
    alike, for every [top_k]. The ranking by count and word leaves no
    tie for the order of the corpus to decide. *)
Theorem predictions_ignore_follower_order text top_k w p1 p2 :
  trained p1 = true ->
  trained p2 = true ->
  last (Py.split text) = Some w ->
  Py.get_or [w] [] (model p1) ≡ₚ Py.get_or [w] [] (model p2) ->
  outcome (predict_next text top_k) p1 = outcome (predict_next text top_k) p2.
Proof.
  intros Ht1 Ht2 Hw Hperm. rewrite !predict_next_eval, Ht1, Ht2, Hw. cbn [negb].
  destruct (Py.get_or [w] [] (model p1)) as [|x1 f1] eqn:H1;
    destruct (Py.get_or [w] [] (model p2)) as [|x2 f2] eqn:H2; [done| | |].
  { by apply Permutation_length in Hperm. }
  { by apply Permutation_length in Hperm. }
  rewrite !slice_upto, !fmap_take. unfold Py.len. rewrite <- !(length_fmap fst).
  fold (tally (x1 :: f1)) (tally (x2 :: f2)).
  fold (ranking (x1 :: f1)) (ranking (x2 :: f2)).
  by rewrite (ranking_Permutation _ _ Hperm).
Qed.

(** X16. Only a model trained with [n = 2] predicts: after [train] with
    any other [n >= 1] the contexts of the index have [n - 1] tokens,
    never one, and [predict_next] answers that no prediction is
    available for every prefix that has a token. *)
Theorem only_bigram_models_predict corpus n s e p text top_k :
  1 <= n ->
  n <> 2 ->
  Py.split text <> [] ->
  let p' := after (train corpus n s e) p in
  (forall w, Py.get [w] (model p') = None)
  /\ outcome (predict_next text top_k) p' = inr [msg_no_predictions].
Proof.
  intros Hn Hn2 Hne. cbv zeta.
  assert (Hnone : forall w, followers_of [w] (windows (Py.split corpus) n) = []).
  { intros w. destruct (followers_of _ _) as [|x fs] eqn:Hfs; [done|].
    assert (Hx : x ∈ followers_of [w] (windows (Py.split corpus) n))
      by (rewrite Hfs; left).
    apply elem_of_followers_of in Hx.
    assert (Hlen : Py.len [w] = n - 1).
    { apply (length_window_context (Py.split corpus) n); [done|].
      apply list_elem_of_fmap. by exists ([w], x). }
    unfold Py.len in Hlen. simpl in Hlen. lia. }
  split.
  - intros w. unfold after. rewrite train_run by done. cbn [snd model].
    rewrite get_record_all. cbn [Py.get]. by rewrite Hnone.
  - rewrite predict_next_eval, trained_after_train by done. cbn [negb].
    destruct (Py.split text) as [|t ts]; [done|].
    destruct (exists_last (l := t :: ts)) as (ws & w & ->); [done|].
    by rewrite last_snoc, followers_after_train, Hnone.
Qed.

(** X17. A [train] that returns forgets what the object held before,
    the two file attributes apart: from any two objects with the same
    [file_size] and [file_name], the same corpus, [n] and clock readings
    leave the same object. Nothing of an earlier corpus stays in the
    index or in the statistics. *)
Theorem train_forgets_previous corpus n s e p1 p2 :
  1 <= n \/ 1 - n <= Py.len (Py.split corpus) ->
  file_size p1 = file_size p2 ->
  file_name p1 = file_name p2 ->
  train corpus n s e p1 = train corpus n s e p2.
Proof.
  intros Hn Hsize Hname.
  rewrite !train_scanned_run by (by apply positions_readable).
  by rewrite Hsize, Hname.
Qed.

(* --------------------------------------------------------------------- *)
(** ** Statistics before training *)
(* --------------------------------------------------------------------- *)

Module UntrainedFacts.

(** [train] with [n <= 0] on a corpus of fewer than [1 - n] tokens: the
    first read of the loop raises, after the index was cleared and the
    vocabulary counted. *)
Lemma train_raises_run corpus n s e p :
  n <= 0 -> Py.len (Py.split corpus) < 1 - n ->
  train corpus n s e p =
  (inl Py.IndexError,
   with_vocab_size (Py.len_set (Py.split corpus)) (with_model [] p)).
Proof.
  intros Hn Hlen.
  unfold train, train_scan, scan, bind at 1 2 3, modify, Py.range.
  destruct (Z.to_nat (Py.len (Py.split corpus) - n + 1)) as [|m] eqn:Hm.
  { unfold Py.len in *. lia. }
  cbn [seq fmap list_fmap for_each]. unfold bind at 1, scan_step, bind at 1.
  rewrite index_out_of_range by (simpl; lia). done.
Qed.

(** Whenever [train] raises, that is what it leaves. *)
Lemma train_raised_state corpus n s e p err :
  outcome (train corpus n s e) p = inl err ->
  after (train corpus n s e) p
  = with_vocab_size (Py.len_set (Py.split corpus)) (with_model [] p).
Proof.
  intros Hout.
  destruct (decide (1 <= n \/ 1 - n <= Py.len (Py.split corpus))) as [Hn|Hn].
  - unfold outcome in Hout.
    rewrite train_scanned_run in Hout by (by apply positions_readable).
    discriminate Hout.
  - unfold after. rewrite train_raises_run by lia. done.
Qed.

(** What only a [train] call that returns writes still has the value of
    a new object. *)
Lemma untrained_attributes p :
  untrained p ->
  trained p = false
  /\ training_time p = Py.Int 0
  /\ unique_transitions p = 0
  /\ total_transitions p = 0
  /\ f1_score p = Py.Int 0
  /\ 0 <= file_size p.
Proof.
  induction 1 as [|p size name Hp IH Hsize|p corpus n s e err Hp IH Hout].
  - by split_and!.
  - destruct IH as (? & ? & ? & ? & ? & ?). by split_and!.
  - rewrite (train_raised_state _ _ _ _ _ _ Hout).
    destruct IH as (? & ? & ? & ? & ? & ?). by split_and!.
Qed.

(** [get_stats] returns its record and leaves the object alone. *)
Lemma get_stats_pure p : get_stats p = (outcome get_stats p, p).
Proof.
  unfold outcome, get_stats, bind, gets.
  repeat match goal with
         | |- context [call ?r] => destruct r; cbn [call raise ret fst]
         | |- context [if ?c then _ else _] => destruct c
         end; reflexivity.
Qed.

End UntrainedFacts.

Import UntrainedFacts.

(** C7, amended. [get_stats] does not look at the trained flag: the
    flag set either way, it returns the same. On every object on which
    no [train] call has returned yet (with a file size of at most
    [2 ^ 970]) the flag is false and [get_stats] returns an ordinary
    record: the file name and the file size the object holds, the
    training time "0.00 seconds", the [vocab_size] the object holds, no
    transitions, the score "0.000" and the compression ratio "N/A"; on
    a new object this is the record of the initial values. Telling the
    untrained object apart is done by the caller: [show_statistics]
    shows its warning and does not call [get_stats] when the flag is
    false, and shows the record of [get_stats] when the flag is true. *)
Theorem get_stats_ignores_trained :
  (forall b p, outcome get_stats (with_trained b p) = outcome get_stats p)
  /\ (forall p,
        untrained p -> file_size p <= 2 ^ 970 ->
        trained p = false
        /\ outcome get_stats p =
           inr {| st_file_name := file_name p;
                  st_file_size :=
                    Py.format_float 1
                      (Py.fdiv (Py.exact_int (file_size p)) (Py.exact_int 1024))
                    ++ Py.lit " KB";
                  st_training_time := Py.lit "0.00 seconds";
                  st_vocab_size := vocab_size p;
                  st_unique_transitions := 0;
                  st_total_transitions := 0;
                  st_f1_score := Py.lit "0.000";
                  st_compression_ratio := Py.lit "N/A" |})
  /\ outcome get_stats init =
     inr {| st_file_name := [];
            st_file_size := Py.lit "0.0 KB";
            st_training_time := Py.lit "0.00 seconds";
            st_vocab_size := 0;
            st_unique_transitions := 0;
            st_total_transitions := 0;
            st_f1_score := Py.lit "0.000";
            st_compression_ratio := Py.lit "N/A" |}
  /\ (forall a,
        trained (the_predictor a) = false ->
        show_statistics a =
        (inr (ShowWarning (Py.lit "No Data")
                          (Py.lit "Please train the model first")), a))
  /\ (forall a st,
        trained (the_predictor a) = true ->
        outcome get_stats (the_predictor a) = inr st ->
        show_statistics a = (inr (StatsWindow (metrics_of st)), a)).
Proof.
  split_and!.
  - intros b [m t tt v u tot f fs fn].
    unfold outcome, get_stats, bind, gets, with_trained.
    cbn [file_size training_time f1_score unique_transitions vocab_size].
    repeat match goal with
           | |- context [call ?r] => destruct r; cbn [call raise ret fst]
           | |- context [if ?c then _ else _] => destruct c
           end; reflexivity.
  - intros p Hp Hsize.
    destruct (untrained_attributes p Hp) as (Htr & Htime & Hu & Htot & Hf & Hfs).
    split; [done|].
    unfold outcome, get_stats, bind, gets. rewrite Htime, Hu, Htot, Hf.
    rewrite int_truediv_bounded by lia. reflexivity.
  - vm_compute. reflexivity.
  - intros a Htr. unfold show_statistics. by rewrite Htr.
  - intros [ui cd p] st Htr Hst. unfold show_statistics.
    cbn [the_predictor user_input chat_display] in *.
    by rewrite Htr, get_stats_pure, Hst.
Qed.

(** C7 on an object that is not new and was never trained. *)
Lemma get_stats_ignores_trained_witness :
  (untrained never_trained /\ file_size never_trained <= 2 ^ 970)
  /\ (trained never_trained = false
      /\ outcome get_stats never_trained =
         inr {| st_file_name := file_name never_trained;
                st_file_size :=
                  Py.format_float 1
                    (Py.fdiv (Py.exact_int (file_size never_trained))
                             (Py.exact_int 1024))
                  ++ Py.lit " KB";
                st_training_time := Py.lit "0.00 seconds";
                st_vocab_size := vocab_size never_trained;
                st_unique_transitions := 0;
                st_total_transitions := 0;
                st_f1_score := Py.lit "0.000";
                st_compression_ratio := Py.lit "N/A" |})
  /\ outcome get_stats never_trained =
     inr {| st_file_name := Py.lit "f.txt";
            st_file_size := Py.lit "2.0 KB";
            st_training_time := Py.lit "0.00 seconds";
            st_vocab_size := 2;
            st_unique_transitions := 0;
            st_total_transitions := 0;
            st_f1_score := Py.lit "0.000";
            st_compression_ratio := Py.lit "N/A" |}.
Proof.
  assert (H0 : outcome (train (Py.lit "a b") (-5) Py.fzero Py.fzero) stored_file
               = inl Py.IndexError) by (vm_compute; reflexivity).
  assert (Hs : 0 <= 2048) by lia.
  assert (H1 : untrained never_trained).
  { exact (untrained_raised _ _ _ _ _ _
             (untrained_file _ 2048 (Py.lit "f.txt") untrained_init Hs) H0). }
  assert (H2 : file_size never_trained <= 2 ^ 970) by (vm_compute; discriminate).
  assert (H3 : outcome get_stats never_trained
               = inr {| st_file_name := Py.lit "f.txt";
                        st_file_size := Py.lit "2.0 KB";
                        st_training_time := Py.lit "0.00 seconds";
                        st_vocab_size := 2;
                        st_unique_transitions := 0;
                        st_total_transitions := 0;
                        st_f1_score := Py.lit "0.000";
                        st_compression_ratio := Py.lit "N/A" |})
    by (vm_compute; reflexivity).
  exact (conj (conj H1 H2)
          (conj (proj1 (proj2 get_stats_ignores_trained) _ H1 H2) H3)).
Defined.

(* --------------------------------------------------------------------- *)
(** ** The further theorems at a concrete input *)
(* --------------------------------------------------------------------- *)

(** X1 on the cat corpus with [n = 2]. *)
Lemma unique_at_most_total_witness :
  1 <= 2
  /\ let p' := after (train cat_corpus 2 Py.fzero Py.fzero) init in
     outcome (train cat_corpus 2 Py.fzero Py.fzero) init = inr tt
     /\ 0 <= unique_transitions p' <= total_transitions p'
     /\ (unique_transitions p' = 0 <-> total_transitions p' = 0)
     /\ (total_transitions p' = 0 <-> Py.len (Py.split cat_corpus) < 2).
Proof.
  assert (H : 1 <= 2) by lia. split; [exact H|].
  exact (unique_at_most_total cat_corpus 2 Py.fzero Py.fzero init H).
Defined.

(** X2 on the corpus a b c a b d with [n = 3]. *)
Lemma index_agrees_with_counts_witness :
  1 <= 3
  /\ exists transition_counts,
       outcome (train_scan abc_corpus 3) init = inr transition_counts
       /\ forall k,
            let followers :=
              Py.get_or k [] (model (after (train abc_corpus 3 Py.fzero Py.fzero) init)) in
            (forall w, default 0 (Py.get (k, w) transition_counts) = occ w followers)
            /\ Py.isum ((fun w => default 0 (Py.get (k, w) transition_counts))
                          <$> remove_dups followers)
               = Py.len followers.
Proof.
  assert (H : 1 <= 3) by lia. split; [exact H|].
  exact (index_agrees_with_counts abc_corpus 3 Py.fzero Py.fzero init H).
Defined.

(** X3 on the corpus a b c a b d with [n = 3]. *)
Lemma index_well_formed_witness :
  1 <= 3
  /\ let p' := after (train abc_corpus 3 Py.fzero Py.fzero) init in
     NoDup (Py.keys (model p'))
     /\ (forall k followers,
           Py.get k (model p') = Some followers ->
           followers <> [] /\ Py.len k = 3 - 1)
     /\ Py.isum (Py.len <$> Py.values (model p')) = total_transitions p'.
Proof.
  assert (H : 1 <= 3) by lia. split; [exact H|].
  exact (index_well_formed abc_corpus 3 Py.fzero Py.fzero init H).
Defined.

(** X4 on the cat corpus with [n = 1]. *)
Lemma vocab_size_distinct_tokens_witness :
  1 <= 1
  /\ let p' := after (train cat_corpus 1 Py.fzero Py.fzero) init in
     let tokens := Py.split cat_corpus in
     vocab_size p' = Py.len (remove_dups tokens)
     /\ 0 <= vocab_size p' <= Py.len tokens
     /\ (vocab_size p' = 0 <-> tokens = []).
Proof.
  assert (H : 1 <= 1) by lia. split; [exact H|].
  exact (vocab_size_distinct_tokens cat_corpus 1 Py.fzero Py.fzero init H).
Defined.

(** X5 on the cat corpus with [n = 2], asked for the words after
    [the]. *)
Lemma predictions_are_corpus_tokens_witness :
  1 <= 2
  /\ let tokens := Py.split cat_corpus in
     (exists l,
        outcome (predict_next the 3)
                (after (train cat_corpus 2 Py.fzero Py.fzero) init) = inr l
        /\ (l = [msg_no_predictions]
            \/ Forall (fun x => x ∈ tokens /\ is_word x) l))
     /\ (msg_no_predictions ∉ tokens)
     /\ (msg_not_trained ∉ tokens).
Proof.
  assert (H : 1 <= 2) by lia. split; [exact H|].
  exact (predictions_are_corpus_tokens cat_corpus 2 Py.fzero Py.fzero init the 3 H).
Defined.

(** X6 on the cat corpus, asked for two words after [the]. *)
Lemma bigram_prediction_witness :
  (last (Py.split the) = Some the /\ 1 <= 2)
  /\ let tokens := Py.split cat_corpus in
     let p' := after (train cat_corpus 2 Py.fzero Py.fzero) init in
     Py.get_or [the] [] (model p') = successors the tokens
     /\ ((forall x, ~ follows tokens the x) ->
         outcome (predict_next the 2) p' = inr [msg_no_predictions])
     /\ ((exists x, follows tokens the x) ->
         exists ranked,
           outcome (predict_next the 2) p' = inr (take (Z.to_nat 2) ranked)
           /\ ranked <> []
           /\ NoDup ranked
           /\ (forall x, x ∈ ranked <-> follows tokens the x)
           /\ StronglySorted (ranks_before (successors the tokens)) ranked).
Proof.
  assert (H1 : last (Py.split the) = Some the) by (vm_compute; reflexivity).
  assert (H2 : 1 <= 2) by lia.
  split; [exact (conj H1 H2)|].
  exact (bigram_prediction cat_corpus Py.fzero Py.fzero init the 2 the H1 H2).
Defined.

(** X7 on the cat model: the prefixes [on the] and [the]. *)
Lemma predict_next_last_token_only_witness :
  last (Py.split (Py.lit "on the")) = last (Py.split the)
  /\ outcome (predict_next (Py.lit "on the") 3) cat_model
     = outcome (predict_next the 3) cat_model.
Proof.
  assert (H : last (Py.split (Py.lit "on the")) = last (Py.split the))
    by (vm_compute; reflexivity).
  split; [exact H|].
  exact (predict_next_last_token_only (Py.lit "on the") the 3 cat_model H).
Defined.

(** X8 on the cat model, for the followers of [the]. *)
Lemma top_k_cuts_the_ranking_witness :
  (trained cat_model = true
   /\ last (Py.split the) = Some the
   /\ Py.get_or [the] [] (model cat_model) = [cat; mat; cat]
   /\ [cat; mat; cat] <> [])
  /\ Py.len (ranking [cat; mat; cat]) = Py.len (remove_dups [cat; mat; cat])
  /\ forall top_k,
       outcome (predict_next the top_k) cat_model =
       inr (take (Z.to_nat (if top_k <? 0
                            then Py.len (ranking [cat; mat; cat]) + top_k
                            else top_k))
                 (ranking [cat; mat; cat])).
Proof.
  assert (H1 : trained cat_model = true) by (vm_compute; reflexivity).
  assert (H2 : last (Py.split the) = Some the) by (vm_compute; reflexivity).
  assert (H3 : Py.get_or [the] [] (model cat_model) = [cat; mat; cat])
    by (vm_compute; reflexivity).
  assert (H4 : [cat; mat; cat] <> []) by discriminate.
  split; [exact (conj H1 (conj H2 (conj H3 H4)))|].
  exact (top_k_cuts_the_ranking the the [cat; mat; cat] cat_model H1 H2 H3 H4).
Defined.

(** X9 on the cat model with a prefix of two spaces. *)
Lemma empty_answer_iff_blank_prefix_witness :
  1 <= 3
  /\ (outcome (predict_next (Py.lit "  ") 3) cat_model = inr []
      <-> trained cat_model = true /\ Py.split (Py.lit "  ") = []).
Proof.
  assert (H : 1 <= 3) by lia. split; [exact H|].
  exact (empty_answer_iff_blank_prefix (Py.lit "  ") 3 cat_model H).
Defined.

(** X10: the cat model trained again, on the empty corpus with
    [n = 0]. *)
Lemma train_index_error_witness :
  (0 <= 0 /\ Py.len (Py.split []) < 1 - 0)
  /\ let p' := after (train [] 0 Py.fzero Py.fzero) cat_model in
     outcome (train [] 0 Py.fzero Py.fzero) cat_model = inl Py.IndexError
     /\ p' = with_vocab_size (Py.len_set (Py.split [])) (with_model [] cat_model)
     /\ (forall text top_k,
           trained cat_model = true -> Py.split text <> [] ->
           outcome (predict_next text top_k) p' = inr [msg_no_predictions]).
Proof.
  assert (H1 : 0 <= 0) by lia.
  assert (H2 : Py.len (Py.split []) < 1 - 0) by (vm_compute; reflexivity).
  split; [exact (conj H1 H2)|].
  exact (train_index_error [] 0 Py.fzero Py.fzero cat_model H1 H2).
Defined.

(** X11 on the cat corpus with [n = 0]: ten transitions from nine
    tokens. *)
Lemma train_returns_witness :
  (1 <= 0 \/ 1 - 0 <= Py.len (Py.split cat_corpus))
  /\ let p' := after (train cat_corpus 0 Py.fzero Py.fzero) init in
     outcome (train cat_corpus 0 Py.fzero Py.fzero) init = inr tt
     /\ trained p' = true
     /\ total_transitions p' = Z.max 0 (Py.len (Py.split cat_corpus) - 0 + 1).
Proof.
  assert (H : 1 <= 0 \/ 1 - 0 <= Py.len (Py.split cat_corpus))
    by (right; vm_compute; discriminate).
  split; [exact H|].
  exact (train_returns cat_corpus 0 Py.fzero Py.fzero init H).
Defined.

(** X12 on the cat corpus with [n = 2], from a fresh object. *)
Lemma get_stats_after_train_witness :
  (1 <= 2
   /\ 0 <= file_size init <= 2 ^ 970
   /\ Py.len (Py.split cat_corpus) <= 2 ^ 970)
  /\ let p' := after (train cat_corpus 2 clock_start clock_end) init in
     let tokens := Py.split cat_corpus in
     exists st,
       outcome get_stats p' = inr st
       /\ after get_stats p' = p'
       /\ st_file_name st = file_name init
       /\ st_vocab_size st = Py.len (remove_dups tokens)
       /\ st_unique_transitions st = Py.len (remove_dups (windows tokens 2))
       /\ st_total_transitions st = Z.max 0 (Py.len tokens - 2 + 1)
       /\ (st_compression_ratio st = Py.lit "N/A" <-> Py.len tokens < 2).
Proof.
  assert (H1 : 1 <= 2) by lia.
  assert (H2 : 0 <= file_size init <= 2 ^ 970)
    by (vm_compute; split; discriminate).
  assert (H3 : Py.len (Py.split cat_corpus) <= 2 ^ 970)
    by (vm_compute; discriminate).
  split; [exact (conj H1 (conj H2 H3))|].
  exact (get_stats_after_train cat_corpus 2 clock_start clock_end init H1 H2 H3).
Defined.

(** X14 on the cat corpus with [n = 2], where [the cat] occurs
    twice. *)
Lemma f1_score_zero_iff_distinct_witness :
  (1 <= 2 /\ Py.len (Py.split cat_corpus) <= 2 ^ 970)
  /\ let p' := after (train cat_corpus 2 Py.fzero Py.fzero) init in
     let pairs := windows (Py.split cat_corpus) 2 in
     (f1_score p' = Py.Int 0 <-> NoDup pairs)
     /\ (~ NoDup pairs -> exists x, f1_score p' = Py.Float x).
Proof.
  assert (H1 : 1 <= 2) by lia.
  assert (H2 : Py.len (Py.split cat_corpus) <= 2 ^ 970)
    by (vm_compute; discriminate).
  split; [exact (conj H1 H2)|].
  exact (f1_score_zero_iff_distinct cat_corpus 2 Py.fzero Py.fzero init H1 H2).
Defined.

(** X15 on two corpora that list the followers of [the] in a different
    order. *)
Lemma predictions_ignore_follower_order_witness :
  (trained cat_model = true
   /\ trained (after (train (Py.lit "the mat the cat the cat") 2 Py.fzero Py.fzero) init)
      = true
   /\ last (Py.split the) = Some the
   /\ Py.get_or [the] [] (model cat_model)
      ≡ₚ Py.get_or [the] []
           (model (after (train (Py.lit "the mat the cat the cat") 2
                            Py.fzero Py.fzero) init)))
  /\ outcome (predict_next the 3) cat_model
     = outcome (predict_next the 3)
         (after (train (Py.lit "the mat the cat the cat") 2 Py.fzero Py.fzero) init).
Proof.
  assert (H1 : trained cat_model = true) by (vm_compute; reflexivity).
  assert (H2 : trained (after (train (Py.lit "the mat the cat the cat") 2
                                 Py.fzero Py.fzero) init) = true)
    by (vm_compute; reflexivity).
  assert (H3 : last (Py.split the) = Some the) by (vm_compute; reflexivity).
  assert (H4 : Py.get_or [the] [] (model cat_model)
               ≡ₚ Py.get_or [the] []
                    (model (after (train (Py.lit "the mat the cat the cat") 2
                                     Py.fzero Py.fzero) init))).
  { assert (Ha : Py.get_or [the] [] (model cat_model) = [cat; mat; cat])
      by (vm_compute; reflexivity).
    assert (Hb : Py.get_or [the] []
                   (model (after (train (Py.lit "the mat the cat the cat") 2
                                    Py.fzero Py.fzero) init)) = [mat; cat; cat])
      by (vm_compute; reflexivity).
    rewrite Ha, Hb. apply perm_swap. }
  split; [exact (conj H1 (conj H2 (conj H3 H4)))|].
  exact (predictions_ignore_follower_order the 3 the cat_model _ H1 H2 H3 H4).
Defined.

(** X16 on the cat corpus with [n = 1]. *)
Lemma only_bigram_models_predict_witness :
  (1 <= 1 /\ 1 <> 2 /\ Py.split the <> [])
  /\ let p' := after (train cat_corpus 1 Py.fzero Py.fzero) init in
     (forall w, Py.get [w] (model p') = None)
     /\ outcome (predict_next the 3) p' = inr [msg_no_predictions].
Proof.
  assert (H1 : 1 <= 1) by lia.
  assert (H2 : 1 <> 2) by lia.
  assert (H3 : Py.split the <> []) by (vm_compute; discriminate).
  split; [exact (conj H1 (conj H2 H3))|].
  exact (only_bigram_models_predict cat_corpus 1 Py.fzero Py.fzero init the 3 H1 H2 H3).
Defined.

(** X17: the corpus a b c a b d, on the cat model and on a fresh
    object. *)
Lemma train_forgets_previous_witness :
  ((1 <= 2 \/ 1 - 2 <= Py.len (Py.split abc_corpus))
   /\ file_size cat_model = file_size init
   /\ file_name cat_model = file_name init)
  /\ train abc_corpus 2 clock_start clock_end cat_model
     = train abc_corpus 2 clock_start clock_end init.
Proof.
  assert (H1 : 1 <= 2 \/ 1 - 2 <= Py.len (Py.split abc_corpus)) by (left; lia).
  assert (H2 : file_size cat_model = file_size init) by (vm_compute; reflexivity).
  assert (H3 : file_name cat_model = file_name init) by (vm_compute; reflexivity).
  split; [exact (conj H1 (conj H2 H3))|].
  exact (train_forgets_previous abc_corpus 2 clock_start clock_end cat_model init
           H1 H2 H3).
Defined.
